(** * Pairwise string evaluation: the verdict parser and the argument protocol

    A shallow embedding of [langchain/evaluation/schema.py] and
    [langchain/evaluation/comparison/eval_chain.py].

    Python strings are sequences of Unicode code points; they are modelled as
    [list N].  Exceptions are values of [exn]; a computation that may raise
    returns a [result]; a computation that may also emit warnings returns the
    warnings emitted so far together with its outcome. *)

From Stdlib Require Import NArith QArith.
From stdpp Require Import gmap strings list.

Set Default Proof Using "Type".

(* ===================================================================== *)
(** ** Python values: strings, exceptions, outcomes *)
(* ===================================================================== *)

Module Py.

(** A [str] is a list of code points. *)
Abbreviation str := (list N).

(** A literal written in ASCII. *)
Definition py (s : string) : str :=
  map Ascii.N_of_ascii (String.list_ascii_of_string s).
Arguments py : simpl never.

(** The line feed, Python's ["\n"]. *)
Definition LF : N := 10%N.

(** [str.isspace] on one code point: the code points that [str.strip()]
    without argument removes. *)
Definition isspace (c : N) : bool :=
  ((9 <=? c) && (c <=? 13) || (28 <=? c) && (c <=? 32)
   || (c =? 133) || (c =? 160) || (c =? 5760)
   || (8192 <=? c) && (c <=? 8202)
   || (c =? 8232) || (c =? 8233) || (c =? 8239) || (c =? 8287)
   || (c =? 12288))%N.

(** Membership of a code point in the argument of [str.strip(chars)]. *)
Definition in_chars (chars : str) (c : N) : bool := existsb (N.eqb c) chars.

Fixpoint drop_while (p : N -> bool) (s : str) : str :=
  match s with
  | [] => []
  | c :: t => if p c then drop_while p t else s
  end.

(** Removal of the leading, of the trailing, and of both runs of the code
    points satisfying [p]. *)
Definition lstrip_with (p : N -> bool) (s : str) : str := drop_while p s.
Definition rstrip_with (p : N -> bool) (s : str) : str :=
  reverse (drop_while p (reverse s)).
Definition strip_with (p : N -> bool) (s : str) : str :=
  rstrip_with p (lstrip_with p s).

(** [s.strip()] *)
Definition strip (s : str) : str := strip_with isspace s.

(** [s.lstrip()] *)
Definition lstrip (s : str) : str := lstrip_with isspace s.

(** [s.isspace() or s == ""]: nothing but whitespace. *)
Definition blank (s : str) : bool := forallb isspace s.

(** [s.strip(chars)] *)
Definition strip_chars (chars : str) (s : str) : str :=
  strip_with (in_chars chars) s.

(** Split at the first occurrence of [sep], if any. *)
Fixpoint break_at (sep : N) (s : str) : option (str * str) :=
  match s with
  | [] => None
  | c :: t =>
      if (c =? sep)%N then Some ([], t)
      else match break_at sep t with
           | Some (a, b) => Some (c :: a, b)
           | None => None
           end
  end.

(** [s.rsplit(sep, maxsplit=1)] for a separator of one code point: the
    string is cut at the last occurrence of [sep]; without an occurrence the
    list holds the string alone. *)
Definition rsplit1 (sep : N) (s : str) : list str :=
  match break_at sep (reverse s) with
  | Some (b, a) => [reverse a; reverse b]
  | None => [s]
  end.

Inductive exn : Type :=
| ValueError (msg : str)
| KeyError (key : str)
| NotImplementedError (msg : str)
| OtherError (name msg : str).

Inductive result (A : Type) : Type :=
| Return (a : A)
| Raise (e : exn).
Arguments Return {A} a.
Arguments Raise {A} e.

#[global] Instance result_ret : MRet result := @Return.
#[global] Instance result_bind : MBind result := fun A B k r =>
  match r with
  | Return a => k a
  | Raise e => Raise e
  end.

(** [a, b = parts] *)
Definition unpack2 (parts : list str) : result (str * str) :=
  match parts with
  | [a; b] => Return (a, b)
  | _ :: _ :: _ :: _ =>
      Raise (ValueError (py "too many values to unpack (expected 2)"))
  | [_] =>
      Raise (ValueError (py "not enough values to unpack (expected 2, got 1)"))
  | [] =>
      Raise (ValueError (py "not enough values to unpack (expected 2, got 0)"))
  end.

(** [d[key]] *)
Definition getitem {V} (d : gmap str V) (key : str) : result V :=
  match d !! key with
  | Some v => Return v
  | None => Raise (KeyError key)
  end.

(** A computation that may call [warnings.warn] before it returns or raises:
    the warnings emitted, in order, and the outcome. *)
Definition M (A : Type) : Type := (list str * result A)%type.

Definition lift {A} (r : result A) : M A := ([], r).
Definition raise {A} (e : exn) : M A := lift (Raise e).
Definition warn (msg : str) : M unit := ([msg], Return tt).
Definition warnings {A} (m : M A) : list str := fst m.
Definition outcome {A} (m : M A) : result A := snd m.

#[global] Instance M_ret : MRet M := fun A a => lift (Return a).
#[global] Instance M_bind : MBind M := fun A B k m =>
  match outcome m with
  | Return a => (warnings m ++ warnings (k a), outcome (k a))
  | Raise e => (warnings m, Raise e)
  end.

End Py.

Import Py.

(* ===================================================================== *)
(** ** schema.py: the evaluator protocol *)
(* ===================================================================== *)

Module Schema.
Section Protocol.
Context {Kwargs Out : Type}.

(** [_EvalArgsMixin]: the capability flags and the warning texts are
    properties, which a subclass may override; [class_name] stands for
    [self.__class__.__name__]. *)
Class _EvalArgsMixin (E : Type) : Type := {
  class_name : E -> str;
  requires_reference : E -> bool;
  requires_input : E -> bool;
  _skip_input_warning : E -> str;
  _skip_reference_warning : E -> str
}.

(** The bodies the mixin itself gives to its properties. *)
Definition mixin_requires_reference : bool := false.
Definition mixin_requires_input : bool := false.
Definition mixin_skip_input_warning (name : str) : str :=
  py "Ignoring input in " ++ name ++ py ", as it is not expected.".
Definition mixin_skip_reference_warning (name : str) : str :=
  py "Ignoring reference in " ++ name ++ py ", as it is not expected.".

Definition requires_input_error (name : str) : exn :=
  ValueError (name ++ py " requires an input string.").
Definition requires_reference_error (name : str) : exn :=
  ValueError (name ++ py " requires a reference string.").

Definition _check_evaluation_args `{_EvalArgsMixin E} (self : E)
    (reference input : option str) : M unit :=
  (if requires_input self && bool_decide (input = None) then
     raise (requires_input_error (class_name self))
   else if negb (bool_decide (input = None)) && negb (requires_input self) then
     warn (_skip_input_warning self)
   else
     mret tt) ;;
  if requires_reference self && bool_decide (reference = None) then
    raise (requires_reference_error (class_name self))
  else if negb (bool_decide (reference = None))
          && negb (requires_reference self) then
    warn (_skip_reference_warning self)
  else
    mret tt.

(** [PairwiseStringEvaluator]: the two methods a concrete evaluator
    supplies.  The arguments are keyword-only in the source; here they come
    in the order [prediction], [prediction_b], [reference], [input],
    [kwargs]. *)
Class PairwiseStringEvaluator (E : Type) `{_EvalArgsMixin E} : Type := {
  _evaluate_string_pairs :
    E -> str -> str -> option str -> option str -> Kwargs -> M Out;
  _aevaluate_string_pairs :
    E -> str -> str -> option str -> option str -> Kwargs -> M Out
}.

(** The body the protocol gives to [_aevaluate_string_pairs]. *)
Definition protocol_aevaluate_string_pairs `{_EvalArgsMixin E} (self : E)
    (prediction prediction_b : str) (reference input : option str)
    (kwargs : Kwargs) : M Out :=
  raise (NotImplementedError
           (class_name self ++
            py " hasn't implemented an async aevaluate_string_pairs method.")).

Definition evaluate_string_pairs `{PairwiseStringEvaluator E} (self : E)
    (prediction prediction_b : str) (reference input : option str)
    (kwargs : Kwargs) : M Out :=
  _check_evaluation_args self reference input ;;
  _evaluate_string_pairs self prediction prediction_b reference input kwargs.

(** An [await] of a coroutine runs it to its outcome: the asynchronous
    methods are computations of the same kind as the synchronous ones. *)
Definition aevaluate_string_pairs `{PairwiseStringEvaluator E} (self : E)
    (prediction prediction_b : str) (reference input : option str)
    (kwargs : Kwargs) : M Out :=
  _check_evaluation_args self reference input ;;
  _aevaluate_string_pairs self prediction prediction_b reference input kwargs.

(** [StringEvaluator]: the two methods a concrete evaluator of one string
    supplies, with the arguments in the order [prediction], [reference],
    [input], [kwargs]. *)
Class StringEvaluator (E : Type) `{_EvalArgsMixin E} : Type := {
  _evaluate_strings : E -> str -> option str -> option str -> Kwargs -> M Out;
  _aevaluate_strings : E -> str -> option str -> option str -> Kwargs -> M Out
}.

(** The body the protocol gives to [_aevaluate_strings]. *)
Definition protocol_aevaluate_strings `{_EvalArgsMixin E} (self : E)
    (prediction : str) (reference input : option str) (kwargs : Kwargs)
    : M Out :=
  raise (NotImplementedError
           (class_name self ++
            py " hasn't implemented an async aevaluate_strings method.")).

Definition evaluate_strings `{StringEvaluator E} (self : E)
    (prediction : str) (reference input : option str) (kwargs : Kwargs)
    : M Out :=
  _check_evaluation_args self reference input ;;
  _evaluate_strings self prediction reference input kwargs.

Definition aevaluate_strings `{StringEvaluator E} (self : E)
    (prediction : str) (reference input : option str) (kwargs : Kwargs)
    : M Out :=
  _check_evaluation_args self reference input ;;
  _aevaluate_strings self prediction reference input kwargs.

End Protocol.
End Schema.

(* ===================================================================== *)
(** ** comparison/eval_chain.py: the verdict parser *)
(* ===================================================================== *)

Module PairwiseStringResultOutputParser.

(** The dictionary returned by [parse]; its three keys are fixed. *)
Record parsed : Type := Parsed {
  reasoning : str;
  value : option str;
  score : option Q
}.

(** [{"A", "B", "C"}] *)
Definition verdicts : gset str := {[ py "A"; py "B"; py "C" ]}.

(** [{"A": 1, "B": 0, None: 0.5}] *)
Definition score_table : gmap (option str) Q :=
  <[ None := (1 # 2)%Q ]>
    (<[ Some (py "B") := 0%Q ]> (<[ Some (py "A") := 1%Q ]> ∅)).

Definition invalid_verdict (verdict : str) : exn :=
  ValueError (py "Invalid verdict: " ++ verdict ++
              py ". Verdict must be one of 'A', 'B', or 'C'.").

Definition parse (text : str) : result parsed :=
  '(reasoning, verdict) ← unpack2 (rsplit1 LF (strip text));
  let verdict := strip_chars (py "]") (strip_chars (py "[") verdict) in
  if negb (bool_decide (verdict ∈ verdicts)) then
    Raise (invalid_verdict verdict)
  else
    let verdict_ :=
      if bool_decide (verdict = py "C") then None else Some verdict in
    let score := score_table !! verdict_ in
    Return {| reasoning := reasoning; value := verdict_; score := score |}.

(** A token between [n] opening and [m] closing square brackets. *)
Definition wrapped (n m : nat) (token : str) : str :=
  replicate n 91%N ++ token ++ replicate m 93%N.

(** [text.strip().rsplit("\n", maxsplit=1)[-1]]: the last line of the
    trimmed reply, which is the whole trimmed reply when it holds no line
    feed. *)
Definition last_line (text : str) : str :=
  default [] (last (rsplit1 LF (strip text))).

(** The last line without its brackets. *)
Definition verdict_token (text : str) : str :=
  strip_chars (py "]") (strip_chars (py "[") (last_line text)).

(** A token after [a] opening and [b] closing brackets and before [c]
    closing and [d] opening ones. *)
Definition bracketed (a b c d : nat) (token : str) : str :=
  replicate a 91%N ++ replicate b 93%N ++ token
  ++ replicate c 93%N ++ replicate d 91%N.

End PairwiseStringResultOutputParser.

Import PairwiseStringResultOutputParser.

(* ===================================================================== *)
(** ** comparison/eval_chain.py: the comparison chain *)
(* ===================================================================== *)

Module EvalChain.

(** What the chain reads of a [PromptTemplate]. *)
Record PromptTemplate : Type := {
  input_variables : list str;
  template : str
}.

Section Chain.
Context {LLM Fields Callbacks Kwargs Out : Type}.

Record PairwiseStringEvalChain : Type := {
  llm : LLM;
  prompt : PromptTemplate;
  fields : Fields
}.

(** What the chain inherits from [LLMChain]: the blocking and the awaitable
    invocation of the completion with a payload. *)
Class LLMChain (C : Type) : Type := {
  __call__ : C -> gmap str str -> Callbacks -> Kwargs -> M (gmap str Out);
  acall : C -> gmap str str -> Callbacks -> Kwargs -> M (gmap str Out)
}.

Definition requires_reference (self : PairwiseStringEvalChain) : bool :=
  bool_decide (py "reference" ∈ input_variables (prompt self)).

Definition requires_input (self : PairwiseStringEvalChain) : bool := true.

Definition _skip_reference_warning (name : str) : str :=
  py "Ignoring reference in " ++ name ++ py ", as it is not expected." ++
  LF :: py "To use a reference, initialize PairwiseStringEvalChain with" ++
  py " `requires_reference=True` or with a prompt with 'reference' as an" ++
  py " input variable.".

#[global] Instance chain_args : Schema._EvalArgsMixin PairwiseStringEvalChain := {|
  Schema.class_name _ := py "PairwiseStringEvalChain";
  Schema.requires_reference := requires_reference;
  Schema.requires_input := requires_input;
  Schema._skip_input_warning _ :=
    Schema.mixin_skip_input_warning (py "PairwiseStringEvalChain");
  Schema._skip_reference_warning _ :=
    _skip_reference_warning (py "PairwiseStringEvalChain")
|}.

(** The two default templates, the [repr] of a set and of a list of strings,
    and the class constructor (the field validation of [LLMChain]) are
    defined outside these files. *)
Variables PROMPT PROMPT_WITH_REFERENCE : PromptTemplate.
Variable repr_set : gset str -> str.
Variable repr_list : list str -> str.
Variable cls : LLM -> PromptTemplate -> Fields -> result PairwiseStringEvalChain.

(** The variables a template has to declare: [prediction], [prediction_b]
    and [input], and [reference] when a reference is required. *)
Definition expected_variables (requires_reference : bool) : gset str :=
  {[ py "prediction"; py "prediction_b"; py "input" ]}
  ∪ (if requires_reference then {[ py "reference" ]} else ∅).

Definition input_variables_error (expected : gset str) (got : list str) : exn :=
  ValueError (py "Input variables should be " ++ repr_set expected ++
              py ", but got " ++ repr_list got).

Definition from_llm (llm : LLM) (prompt : option PromptTemplate)
    (requires_reference : bool) (kwargs : Fields)
    : result PairwiseStringEvalChain :=
  let expected_input_vars : gset str :=
    {[ py "prediction"; py "prediction_b"; py "input" ]} in
  let '(expected_input_vars, prompt_) :=
    match prompt with
    | None =>
        if requires_reference then
          ({[ py "reference" ]} ∪ expected_input_vars, PROMPT_WITH_REFERENCE)
        else
          (expected_input_vars, PROMPT)
    | Some prompt =>
        (if requires_reference then {[ py "reference" ]} ∪ expected_input_vars
         else expected_input_vars,
         prompt)
    end in
  if negb (bool_decide
             (expected_input_vars = list_to_set (input_variables prompt_))) then
    Raise (input_variables_error expected_input_vars (input_variables prompt_))
  else
    cls llm prompt_ kwargs.

(** [bool(s)] for an optional string: neither [None] nor empty. *)
Definition truthy (s : option str) : bool :=
  match s with
  | Some (_ :: _) => true
  | _ => false
  end.

(** [_prepare_input] reads [self] through the two capability flags only; it
    is stated for any evaluator, which covers a subclass overriding them. *)
Definition _prepare_input `{Schema._EvalArgsMixin E} (self : E)
    (prediction prediction_b : str) (input reference : option str)
    : result (gmap str str) :=
  let input_ : gmap str str :=
    <[ py "prediction_b" := prediction_b ]>
      (<[ py "prediction" := prediction ]> ∅) in
  input_ ← (if Schema.requires_input self then
              match input with
              | Some (c :: s) => Return (<[ py "input" := c :: s ]> input_)
              | _ =>
                  Raise (ValueError
                           (py "Input is require for this comparison evaluator"))
              end
            else Return input_);
  if Schema.requires_reference self then
    match reference with
    | Some reference => Return (<[ py "reference" := reference ]> input_)
    | None =>
        Raise (ValueError
                 (py "Reference is required for this comparison evaluator"))
    end
  else Return input_.

Context `{!LLMChain PairwiseStringEvalChain}.

Definition _evaluate_string_pairs (self : PairwiseStringEvalChain)
    (prediction prediction_b : str) (input reference : option str)
    (callbacks : Callbacks) (kwargs : Kwargs) : M Out :=
  input_ ← lift (_prepare_input self prediction prediction_b input reference);
  result ← __call__ self input_ callbacks kwargs;
  lift (getitem result (py "text")).

Definition _aevaluate_string_pairs (self : PairwiseStringEvalChain)
    (prediction prediction_b : str) (reference input : option str)
    (callbacks : Callbacks) (kwargs : Kwargs) : M Out :=
  input_ ← lift (_prepare_input self prediction prediction_b input reference);
  result ← acall self input_ callbacks kwargs;
  lift (getitem result (py "text")).

(** The keyword arguments that reach the protocol hold [callbacks] and the
    rest. *)
#[global] Instance chain_evaluator :
  Schema.PairwiseStringEvaluator (Kwargs := Callbacks * Kwargs) (Out := Out)
    PairwiseStringEvalChain := {|
  Schema._evaluate_string_pairs self prediction prediction_b reference input kw :=
    _evaluate_string_pairs self prediction prediction_b input reference
      kw.1 kw.2;
  Schema._aevaluate_string_pairs self prediction prediction_b reference input kw :=
    _aevaluate_string_pairs self prediction prediction_b reference input
      kw.1 kw.2
|}.

(** The evaluation as section 4.4 of the specification words it: argument
    validation, payload assembly, the completion invoked with the payload,
    and the parsed reply read off the reply dictionary.  [invoke] is the way
    the completion is invoked. *)
Definition evaluation_pipeline
    (invoke : PairwiseStringEvalChain -> gmap str str -> Callbacks -> Kwargs ->
              M (gmap str Out))
    (self : PairwiseStringEvalChain) (prediction prediction_b : str)
    (reference input : option str) (callbacks : Callbacks) (kwargs : Kwargs)
    : M Out :=
  Schema._check_evaluation_args self reference input ;;
  payload ← lift (_prepare_input self prediction prediction_b input reference);
  reply ← invoke self payload callbacks kwargs;
  lift (getitem reply (py "text")).

End Chain.
End EvalChain.


(* ===================================================================== *)
(** ** A concrete setting *)
(* ===================================================================== *)

Module Scenario.
Import EvalChain.

(** A template without and a template with a reference slot; the variables
    are declared in another order than the chain lists them. *)
Definition plain_template : PromptTemplate :=
  {| input_variables := [py "input"; py "prediction_b"; py "prediction"];
     template := py "{input} / {prediction} / {prediction_b}" |}.

Definition reference_template : PromptTemplate :=
  {| input_variables :=
       [py "reference"; py "input"; py "prediction_b"; py "prediction"];
     template := py "{input} / {reference} / {prediction} / {prediction_b}" |}.

(** A class constructor that accepts every field. *)
Definition accept (llm : unit) (prompt : PromptTemplate) (fields : unit)
    : result (@PairwiseStringEvalChain unit unit) :=
  Return {| llm := llm; prompt := prompt; fields := fields |}.

Definition plain_chain : @PairwiseStringEvalChain unit unit :=
  {| llm := tt; prompt := plain_template; fields := tt |}.

(** A completion that always replies with the same text; the chain puts the
    parsed reply under the key [text]. *)
Definition canned (reply : str) (self : @PairwiseStringEvalChain unit unit)
    (payload : gmap str str) (callbacks kwargs : unit)
    : M (gmap str parsed) :=
  lift (parse reply) ≫= λ verdict, mret (<[ py "text" := verdict ]> ∅).

Definition canned_chain (reply : str)
    : LLMChain (Callbacks := unit) (Kwargs := unit) (Out := parsed)
        (@PairwiseStringEvalChain unit unit) :=
  {| __call__ := canned reply; acall := canned reply |}.

(** An evaluator that keeps every default of the mixin and of the two
    protocols: it compares the strings, and has no asynchronous method of
    its own. *)
Record ExactMatch : Type := { case_sensitive : bool }.

#[global] Instance exact_match_args : Schema._EvalArgsMixin ExactMatch := {|
  Schema.class_name _ := py "ExactMatch";
  Schema.requires_reference _ := Schema.mixin_requires_reference;
  Schema.requires_input _ := Schema.mixin_requires_input;
  Schema._skip_input_warning _ :=
    Schema.mixin_skip_input_warning (py "ExactMatch");
  Schema._skip_reference_warning _ :=
    Schema.mixin_skip_reference_warning (py "ExactMatch")
|}.

#[global] Instance exact_match_pairs :
  Schema.PairwiseStringEvaluator (Kwargs := unit) (Out := bool) ExactMatch := {|
  Schema._evaluate_string_pairs self prediction prediction_b reference input kw :=
    mret (bool_decide (prediction = prediction_b));
  Schema._aevaluate_string_pairs := Schema.protocol_aevaluate_string_pairs
|}.

#[global] Instance exact_match_strings :
  Schema.StringEvaluator (Kwargs := unit) (Out := bool) ExactMatch := {|
  Schema._evaluate_strings self prediction reference input kw :=
    mret (bool_decide (Some prediction = reference));
  Schema._aevaluate_strings := Schema.protocol_aevaluate_strings
|}.

Definition reference_chain : @PairwiseStringEvalChain unit unit :=
  {| llm := tt; prompt := reference_template; fields := tt |}.

(** The reply of the end-to-end scenario. *)
Definition water_reply : str :=
  py "Both are correct, B is more detailed." ++ LF :: py "[[B]]".

End Scenario.

(* ===================================================================== *)
(** ** Stripping and splitting *)
(* ===================================================================== *)

(** A closed decidable proposition, settled by evaluating its decision. *)
Ltac by_evaluation := apply (bool_decide_unpack _); vm_compute; exact I.

Section StringLemmas.
Implicit Types (p : N -> bool) (s a b : str) (c sep : N).

Lemma drop_while_nil p s : drop_while p s = [] <-> forallb p s = true.
Proof.
  induction s as [|c t IH]; simpl; [tauto|].
  destruct (p c); simpl; [exact IH|]. split; discriminate.
Qed.

Lemma drop_while_all p a b :
  forallb p a = true -> drop_while p (a ++ b) = drop_while p b.
Proof.
  induction a as [|c t IH]; simpl; [reflexivity|].
  destruct (p c); simpl; [exact IH | discriminate].
Qed.

Lemma drop_while_app_l p a b :
  drop_while p a <> [] -> drop_while p (a ++ b) = drop_while p a ++ b.
Proof.
  induction a as [|c t IH]; simpl; [congruence|].
  destruct (p c); [exact IH | reflexivity].
Qed.

Lemma drop_while_head p c s : p c = false -> drop_while p (c :: s) = c :: s.
Proof. intros H. simpl. by rewrite H. Qed.

Lemma rstrip_with_fixed p s :
  rstrip_with p s = s <-> drop_while p (reverse s) = reverse s.
Proof.
  unfold rstrip_with. split; intros H.
  - rewrite <- H at 2. by rewrite reverse_involutive.
  - by rewrite H, reverse_involutive.
Qed.

Lemma rstrip_with_app_keep p a b :
  b <> [] -> rstrip_with p b = b -> rstrip_with p (a ++ b) = a ++ b.
Proof.
  intros Hb H. apply rstrip_with_fixed in H. apply rstrip_with_fixed.
  rewrite reverse_app, drop_while_app_l; rewrite H; [reflexivity|].
  intros E. apply Hb. by rewrite <- (reverse_involutive b), E.
Qed.

Lemma break_at_None sep s : sep ∉ s -> break_at sep s = None.
Proof.
  induction s as [|c t IH]; simpl; [reflexivity|].
  intros [Hc Ht]%not_elem_of_cons.
  destruct (N.eqb_spec c sep) as [->|_]; [done|]. by rewrite IH.
Qed.

Lemma break_at_app sep a b :
  sep ∉ a -> break_at sep (a ++ sep :: b) = Some (a, b).
Proof.
  induction a as [|c t IH]; simpl.
  - intros _. by rewrite N.eqb_refl.
  - intros [Hc Ht]%not_elem_of_cons.
    destruct (N.eqb_spec c sep) as [->|_]; [done|]. by rewrite IH.
Qed.

Lemma rsplit1_whole sep s : sep ∉ s -> rsplit1 sep s = [s].
Proof.
  intros H. unfold rsplit1. rewrite break_at_None; [reflexivity|].
  by rewrite elem_of_reverse.
Qed.

Lemma rsplit1_cut sep a b : sep ∉ b -> rsplit1 sep (a ++ sep :: b) = [a; b].
Proof.
  intros H. unfold rsplit1.
  rewrite reverse_app, reverse_cons, <- app_assoc. simpl.
  rewrite break_at_app by (by rewrite elem_of_reverse).
  by rewrite !reverse_involutive.
Qed.

(** A reply whose reasoning is not blank keeps its last line when trimmed,
    provided that line does not end in whitespace. *)
Lemma strip_reply a b :
  blank a = false -> b <> [] -> rstrip_with isspace b = b ->
  strip (a ++ LF :: b) = lstrip a ++ LF :: b.
Proof.
  intros Ha Hb Hr. unfold strip, strip_with, lstrip, lstrip_with.
  rewrite drop_while_app_l.
  - rewrite (app_assoc _ [LF] b : _ ++ LF :: b = _).
    rewrite rstrip_with_app_keep by done. by rewrite <- app_assoc.
  - intros E%drop_while_nil. unfold blank in Ha. congruence.
Qed.

(** A blank reasoning is trimmed away together with the line feed. *)
Lemma strip_blank_reply a b :
  blank a = true -> strip (a ++ LF :: b) = strip b.
Proof.
  intros Ha. unfold strip, strip_with, lstrip_with.
  by rewrite drop_while_all.
Qed.

End StringLemmas.

(* ===================================================================== *)
(** ** The verdict parser *)
(* ===================================================================== *)

Section ParserLemmas.
Implicit Types (text reasoning line : str) (c : N) (n m : nat).

(** The outcome of [parse] once the trimmed reply is cut at its last line
    feed. *)
Lemma parse_split text reasoning line :
  strip text = reasoning ++ LF :: line -> LF ∉ line ->
  parse text =
    let verdict := strip_chars (py "]") (strip_chars (py "[") line) in
    let verdict_ :=
      if bool_decide (verdict = py "C") then None else Some verdict in
    if bool_decide (verdict ∈ verdicts) then
      Return {| reasoning := reasoning; value := verdict_;
                score := score_table !! verdict_ |}
    else Raise (invalid_verdict verdict).
Proof.
  intros Hs Hl. unfold parse. rewrite Hs, rsplit1_cut by done.
  cbn [unpack2 mbind result_bind]. by destruct (bool_decide (_ ∈ verdicts)).
Qed.

Lemma parse_single_line text :
  LF ∉ strip text ->
  parse text =
    Raise (ValueError (py "not enough values to unpack (expected 2, got 1)")).
Proof. intros H. unfold parse. by rewrite rsplit1_whole. Qed.

Lemma forallb_replicate (p : N -> bool) n c :
  p c = true -> forallb p (replicate n c) = true.
Proof. intros H. induction n as [|n IH]; simpl; [done|]. by rewrite H. Qed.

Lemma wrapped_no_LF n m c : c <> LF -> LF ∉ wrapped n m [c].
Proof.
  intros Hc. unfold wrapped.
  rewrite !not_elem_of_app, not_elem_of_cons. repeat split.
  - by intros [E _]%elem_of_replicate.
  - congruence.
  - apply not_elem_of_nil.
  - by intros [E _]%elem_of_replicate.
Qed.

Lemma wrapped_not_nil n m c : wrapped n m [c] <> [].
Proof. unfold wrapped. by destruct n. Qed.

(** A wrapped token keeps its shape under the removal of a class of code
    points that holds neither the token nor a bracket. *)
Lemma lstrip_wrapped p n m c :
  p 91%N = false -> p c = false ->
  lstrip_with p (wrapped n m [c]) = wrapped n m [c].
Proof.
  intros Ho Hc. unfold lstrip_with, wrapped.
  destruct n; simpl; [by rewrite Hc | by rewrite Ho].
Qed.

Lemma rstrip_wrapped p n m c :
  p 93%N = false -> p c = false ->
  rstrip_with p (wrapped n m [c]) = wrapped n m [c].
Proof.
  intros Ho Hc. apply rstrip_with_fixed. unfold wrapped.
  rewrite !reverse_app, reverse_replicate.
  destruct m; simpl; [by rewrite Hc | by rewrite Ho].
Qed.

Lemma in_chars_single c d : (c =? d)%N = false -> in_chars [d] c = false.
Proof. intros H. unfold in_chars. simpl. by rewrite H. Qed.

(** The two bracket removals leave the token, whatever the numbers of
    brackets. *)
Lemma strip_brackets_wrapped n m c :
  c <> 91%N -> c <> 93%N ->
  strip_chars (py "]") (strip_chars (py "[") (wrapped n m [c])) = [c].
Proof.
  intros Ho Hc.
  assert (in_chars (py "[") c = false) as Ho'
    by (by apply in_chars_single, N.eqb_neq).
  assert (in_chars (py "]") c = false) as Hc'
    by (by apply in_chars_single, N.eqb_neq).
  assert (strip_chars (py "[") (wrapped n m [c]) = wrapped 0 m [c]) as ->.
  { unfold strip_chars, strip_with, lstrip_with, wrapped.
    rewrite drop_while_all by (by apply forallb_replicate).
    cbn [app]. rewrite (drop_while_head _ c) by done.
    by apply (rstrip_wrapped _ 0 m c). }
  unfold strip_chars, strip_with.
  rewrite (lstrip_wrapped _ 0 m c) by done.
  unfold rstrip_with, wrapped. simpl replicate at 1. cbn [app].
  rewrite reverse_cons, reverse_replicate.
  rewrite drop_while_all by (by apply forallb_replicate).
  by rewrite drop_while_head.
Qed.

Lemma strip_wrapped n m c :
  isspace c = false -> strip (wrapped n m [c]) = wrapped n m [c].
Proof.
  intros Hc. unfold strip, strip_with.
  by rewrite lstrip_wrapped, rstrip_wrapped.
Qed.

Lemma not_space_not_LF c : isspace c = false -> c <> LF.
Proof. by intros H ->. Qed.

(** A reply that ends in a wrapped one-character token, after a reasoning
    that is not blank. *)
Lemma parse_wrapped reasoning n m c :
  blank reasoning = false -> isspace c = false ->
  c <> 91%N -> c <> 93%N ->
  parse (reasoning ++ LF :: wrapped n m [c]) =
    let verdict_ := if bool_decide ([c] = py "C") then None else Some [c] in
    if bool_decide ([c] ∈ verdicts) then
      Return {| reasoning := lstrip reasoning; value := verdict_;
                score := score_table !! verdict_ |}
    else Raise (invalid_verdict [c]).
Proof.
  intros Hr Hs Ho Hc.
  rewrite (parse_split _ (lstrip reasoning) (wrapped n m [c])).
  - by rewrite strip_brackets_wrapped.
  - apply strip_reply; [done | apply wrapped_not_nil |].
    by apply rstrip_wrapped.
  - by apply wrapped_no_LF, not_space_not_LF.
Qed.

(** The same reply after a blank reasoning: the trimmed text is one line. *)
Lemma parse_wrapped_blank reasoning n m c :
  blank reasoning = true -> isspace c = false ->
  parse (reasoning ++ LF :: wrapped n m [c]) =
    Raise (ValueError (py "not enough values to unpack (expected 2, got 1)")).
Proof.
  intros Hr Hs. apply parse_single_line.
  rewrite strip_blank_reply, strip_wrapped by done.
  by apply wrapped_no_LF, not_space_not_LF.
Qed.

End ParserLemmas.

Section ParserClaims.
Implicit Types (text reasoning line : str) (c : N) (n m : nat).

Lemma parse_wrapped_A reasoning n m :
  blank reasoning = false ->
  parse (reasoning ++ LF :: wrapped n m (py "A")) =
    Return {| reasoning := lstrip reasoning; value := Some (py "A");
              score := Some 1%Q |}.
Proof.
  intros H. etrans; [by apply (parse_wrapped reasoning n m 65)|].
  reflexivity.
Qed.

Lemma parse_wrapped_B reasoning n m :
  blank reasoning = false ->
  parse (reasoning ++ LF :: wrapped n m (py "B")) =
    Return {| reasoning := lstrip reasoning; value := Some (py "B");
              score := Some 0%Q |}.
Proof.
  intros H. etrans; [by apply (parse_wrapped reasoning n m 66)|].
  reflexivity.
Qed.

Lemma parse_wrapped_C reasoning n m :
  blank reasoning = false ->
  parse (reasoning ++ LF :: wrapped n m (py "C")) =
    Return {| reasoning := lstrip reasoning; value := None;
              score := Some (1 # 2)%Q |}.
Proof.
  intros H. etrans; [by apply (parse_wrapped reasoning n m 67)|].
  reflexivity.
Qed.

Lemma parse_wrapped_any_reasoning reasoning n m n' m' c :
  isspace c = false -> c <> 91%N -> c <> 93%N ->
  parse (reasoning ++ LF :: wrapped n m [c]) =
  parse (reasoning ++ LF :: wrapped n' m' [c]).
Proof.
  intros Hs Ho Hc. destruct (blank reasoning) eqn:Hr.
  - by rewrite !parse_wrapped_blank.
  - by rewrite !parse_wrapped.
Qed.

Lemma elem_of_verdicts (token : str) :
  token ∈ verdicts <-> token = py "A" \/ token = py "B" \/ token = py "C".
Proof.
  unfold verdicts. rewrite !elem_of_union, !elem_of_singleton. tauto.
Qed.

(** Every trimmed reply that holds a line feed has a last line. *)
Lemma final_line_exists text :
  LF ∈ strip text ->
  exists reasoning line, strip text = reasoning ++ LF :: line /\ LF ∉ line.
Proof. apply list_elem_of_split_r. Qed.

(** C1 (amended).  A reply [reasoning ++ "\n[[A]]"] (respectively [[[B]]],
    [[[C]]]) whose reasoning holds a character that is not whitespace parses
    to the value ["A"] (respectively ["B"], [None]) with the score 1
    (respectively 0, 0.5); the reasoning returned is the reasoning of the
    reply without its leading whitespace, which is the reasoning itself when
    it does not start with whitespace. *)
Theorem parse_verdict_reply reasoning :
  blank reasoning = false ->
  parse (reasoning ++ LF :: py "[[A]]") =
    Return {| reasoning := lstrip reasoning; value := Some (py "A");
              score := Some 1%Q |}
  /\ parse (reasoning ++ LF :: py "[[B]]") =
    Return {| reasoning := lstrip reasoning; value := Some (py "B");
              score := Some 0%Q |}
  /\ parse (reasoning ++ LF :: py "[[C]]") =
    Return {| reasoning := lstrip reasoning; value := None;
              score := Some (1 # 2)%Q |}
  /\ (forall c t, reasoning = c :: t -> isspace c = false ->
      lstrip reasoning = reasoning).
Proof.
  intros H. repeat split.
  - exact (parse_wrapped_A reasoning 2 2 H).
  - exact (parse_wrapped_B reasoning 2 2 H).
  - exact (parse_wrapped_C reasoning 2 2 H).
  - intros c t -> Hc. by apply drop_while_head.
Qed.

Lemma parse_verdict_reply_witness :
  blank (py "Both are correct, B is more detailed.") = false
  /\ parse (py "Both are correct, B is more detailed." ++ LF :: py "[[B]]") =
     Return {| reasoning := py "Both are correct, B is more detailed.";
               value := Some (py "B"); score := Some 0%Q |}.
Proof.
  split; [reflexivity|].
  exact (proj1 (proj2 (parse_verdict_reply
    (py "Both are correct, B is more detailed.") eq_refl))).
Defined.

(** C1, as stated, fails: with an empty reasoning the trimmed reply is the
    single line [[[A]]], and [parse] raises; with a reasoning that starts
    with a space the reasoning returned has lost that space. *)
Lemma parse_verdict_reply_counterexample :
  parse ([] ++ LF :: py "[[A]]") =
    Raise (ValueError (py "not enough values to unpack (expected 2, got 1)"))
  /\ parse (py " x" ++ LF :: py "[[A]]") =
    Return {| reasoning := py "x"; value := Some (py "A");
              score := Some 1%Q |}.
Proof. split; vm_compute; reflexivity. Qed.

(** C2.  A reply whose trimmed text holds no line feed makes [parse] raise
    (the unpacking of the one-element split fails with a [ValueError]); no
    result is returned. *)
Theorem parse_rejects_single_line text :
  LF ∉ strip text ->
  parse text =
    Raise (ValueError (py "not enough values to unpack (expected 2, got 1)"))
  /\ forall r, parse text <> Return r.
Proof.
  intros H. pose proof (parse_single_line text H) as E.
  split; [exact E|]. intros r. rewrite E. discriminate.
Qed.

Lemma parse_rejects_single_line_witness :
  (LF ∉ strip (py "  Response A is better [[A]] "))
  /\ parse (py "  Response A is better [[A]] ") =
     Raise (ValueError (py "not enough values to unpack (expected 2, got 1)")).
Proof.
  assert (LF ∉ strip (py "  Response A is better [[A]] ")) as H
    by by_evaluation.
  split; [exact H|].
  exact (proj1 (parse_rejects_single_line _ H)).
Defined.

Lemma last_line_cut text reasoning line :
  strip text = reasoning ++ LF :: line -> LF ∉ line -> last_line text = line.
Proof. intros Hs Hl. unfold last_line. by rewrite Hs, rsplit1_cut. Qed.

(** The trimmed reply that holds a line feed is cut at its last line. *)
Lemma trimmed_cut text :
  LF ∈ strip text ->
  exists reasoning,
    strip text = reasoning ++ LF :: last_line text /\ (LF ∉ last_line text).
Proof.
  intros (reasoning & line & Hs & Hl)%final_line_exists.
  exists reasoning. by rewrite (last_line_cut text reasoning line).
Qed.

(** C3 (amended).  When the trimmed reply holds a line feed and its last
    line, with its brackets removed, is none of ["A"], ["B"], ["C"], [parse]
    raises a [ValueError] whose message holds that token. *)
Theorem parse_rejects_invalid_verdict text :
  LF ∈ strip text ->
  verdict_token text <> py "A" -> verdict_token text <> py "B" ->
  verdict_token text <> py "C" ->
  parse text =
    Raise (ValueError (py "Invalid verdict: " ++ verdict_token text ++
                       py ". Verdict must be one of 'A', 'B', or 'C'."))
  /\ exists msg before after,
       parse text = Raise (ValueError msg)
       /\ msg = before ++ verdict_token text ++ after.
Proof.
  intros (reasoning & Hs & Hl)%trimmed_cut HA HB HC.
  assert (parse text = Raise (invalid_verdict (verdict_token text))) as E.
  { rewrite (parse_split text reasoning (last_line text) Hs Hl).
    fold (verdict_token text). cbv zeta.
    rewrite bool_decide_eq_false_2; [reflexivity|].
    rewrite elem_of_verdicts. tauto. }
  split; [exact E|]. eexists _, _, _. split; [exact E|reflexivity].
Qed.

Lemma parse_rejects_invalid_verdict_witness :
  (LF ∈ strip (py " Neither answers the question." ++ LF :: py "[[D]]" ++ [LF]))
  /\ verdict_token
       (py " Neither answers the question." ++ LF :: py "[[D]]" ++ [LF])
     = py "D"
  /\ parse (py " Neither answers the question." ++ LF :: py "[[D]]" ++ [LF]) =
     Raise (ValueError
              (py "Invalid verdict: D. Verdict must be one of 'A', 'B', or 'C'.")).
Proof.
  assert (LF ∈ strip (py " Neither answers the question." ++ LF
                      :: py "[[D]]" ++ [LF])) as Hin by by_evaluation.
  split; [exact Hin|]. split; [reflexivity|].
  refine (proj1 (parse_rejects_invalid_verdict
    (py " Neither answers the question." ++ LF :: py "[[D]]" ++ [LF])
    Hin _ _ _)); discriminate.
Defined.

(** C3, as stated, fails for a reply of one line: the token of ["[[D]]"],
    and of ["\n[[D]]"], is ["D"], which is none of the three verdicts, yet
    [parse] raises the error of the unpacking, whose message does not hold
    the letter D. *)
Lemma parse_rejects_invalid_verdict_counterexample :
  verdict_token (py "[[D]]") = py "D"
  /\ parse (py "[[D]]") =
     Raise (ValueError (py "not enough values to unpack (expected 2, got 1)"))
  /\ verdict_token ([] ++ LF :: py "[[D]]") = py "D"
  /\ parse ([] ++ LF :: py "[[D]]") =
     Raise (ValueError (py "not enough values to unpack (expected 2, got 1)"))
  /\ (68%N ∉ py "not enough values to unpack (expected 2, got 1)").
Proof.
  repeat split; try (vm_compute; reflexivity). by_evaluation.
Qed.

(** C4 (amended).  The bracket removal leaves the token whatever the numbers
    of opening and closing brackets; so, for every reasoning, a reply whose
    last line is ["[A]"], ["[[[A]]"] or any such wrapping of ["A"] parses
    exactly as the reply whose last line is ["[[A]]"], and it parses to the
    value ["A"] when the reasoning holds a character that is not
    whitespace. *)
Theorem bracket_stripping_is_loose reasoning n m :
  strip_chars (py "]") (strip_chars (py "[") (wrapped n m (py "A"))) = py "A"
  /\ parse (reasoning ++ LF :: wrapped n m (py "A")) =
     parse (reasoning ++ LF :: py "[[A]]")
  /\ parse (reasoning ++ LF :: py "[A]") =
     parse (reasoning ++ LF :: py "[[A]]")
  /\ parse (reasoning ++ LF :: py "[[[A]]") =
     parse (reasoning ++ LF :: py "[[A]]")
  /\ (blank reasoning = false ->
      parse (reasoning ++ LF :: wrapped n m (py "A")) =
        Return {| reasoning := lstrip reasoning; value := Some (py "A");
                  score := Some 1%Q |}).
Proof.
  repeat split.
  - by apply (strip_brackets_wrapped n m 65).
  - by apply (parse_wrapped_any_reasoning reasoning n m 2 2 65).
  - by apply (parse_wrapped_any_reasoning reasoning 1 1 2 2 65).
  - by apply (parse_wrapped_any_reasoning reasoning 3 2 2 2 65).
  - apply parse_wrapped_A.
Qed.

(** C4, as stated, fails for a reasoning that is empty: the reply
    ["\n[A]"] does not parse. *)
Lemma bracket_stripping_counterexample :
  parse ([] ++ LF :: py "[A]") =
    Raise (ValueError (py "not enough values to unpack (expected 2, got 1)"))
  /\ parse ([] ++ LF :: py "[[[A]]") =
    Raise (ValueError (py "not enough values to unpack (expected 2, got 1)")).
Proof. split; vm_compute; reflexivity. Qed.

(** C5.  Whenever [parse] returns, the score is the entry of the fixed table
    at the value returned: 1 for ["A"], 0 for ["B"], 0.5 for [None]; the
    reasoning plays no part. *)
Theorem score_determined_by_value text r :
  parse text = Return r ->
  score r = score_table !! value r
  /\ (value r = Some (py "A") /\ score r = Some 1%Q
      \/ value r = Some (py "B") /\ score r = Some 0%Q
      \/ value r = None /\ score r = Some (1 # 2)%Q).
Proof.
  unfold parse.
  destruct (unpack2 (rsplit1 LF (strip text))) as [[rs line]|e];
    cbn [mbind result_bind]; [|discriminate].
  set (token := strip_chars (py "]") (strip_chars (py "[") line)).
  destruct (bool_decide_reflect (token ∈ verdicts)) as [Hin|Hout];
    cbn [negb]; [|discriminate].
  intros [= <-]. cbn [score value]. split; [reflexivity|].
  apply elem_of_verdicts in Hin as [-> | [-> | ->]]; vm_compute; tauto.
Qed.

Lemma score_determined_by_value_witness :
  parse (py "Both are equally good." ++ LF :: py "[[C]]") =
    Return {| reasoning := py "Both are equally good."; value := None;
              score := Some (1 # 2)%Q |}
  /\ score_table !! (None : option str) = Some (1 # 2)%Q.
Proof.
  assert (parse (py "Both are equally good." ++ LF :: py "[[C]]") =
    Return {| reasoning := py "Both are equally good."; value := None;
              score := Some (1 # 2)%Q |}) as E by (vm_compute; reflexivity).
  split; [exact E|].
  pose proof (proj1 (score_determined_by_value _ _ E)) as H.
  symmetry. exact H.
Defined.

End ParserClaims.

(* ===================================================================== *)
(** ** The argument protocol and the comparison chain *)
(* ===================================================================== *)

Section MonadLemmas.

Lemma bind_raise {A B} (w : list str) (e : exn) (k : A -> M B) :
  ((w, Raise e) : M A) ≫= k = (w, Raise e).
Proof. reflexivity. Qed.

Lemma bind_return {A B} (w : list str) (a : A) (k : A -> M B) :
  ((w, Return a) : M A) ≫= k = (w ++ warnings (k a), outcome (k a)).
Proof. reflexivity. Qed.

Lemma bind_lift_raise {A B} (e : exn) (k : A -> M B) :
  lift (Raise e) ≫= k = ([], Raise e).
Proof. reflexivity. Qed.

Lemma bind_lift_return {A B} (a : A) (k : A -> M B) :
  lift (Return a) ≫= k = k a.
Proof. unfold lift. rewrite bind_return. by destruct (k a). Qed.

End MonadLemmas.

Section ProtocolClaims.
Import Schema.
Context {E : Type} `{!_EvalArgsMixin E}.
Implicit Types (self : E) (reference input : option str).

(** The check of the input, which runs first, decides alone whether the
    check of the reference is reached. *)
Lemma check_evaluation_args_input_missing self reference :
  requires_input self = true ->
  _check_evaluation_args self reference None =
    ([], Raise (requires_input_error (class_name self))).
Proof. intros H. unfold _check_evaluation_args. by rewrite H. Qed.

(** C8 (amended).  For every evaluator and every pair of a reference and an
    input: a required input that is [None] raises a [ValueError]; an input
    that is supplied but not required emits the warning and the check goes on
    to the reference; a required reference that is [None] raises a
    [ValueError]; a reference that is supplied but not required emits the
    warning and the check returns, provided the check of the input, which
    comes first, did not raise. *)
Theorem check_evaluation_args_rules self reference input :
  let r := _check_evaluation_args self reference input in
  (requires_input self = true -> input = None ->
     r = ([], Raise (requires_input_error (class_name self))))
  /\ (requires_input self = false -> input <> None ->
      (exists rest, warnings r = _skip_input_warning self :: rest)
      /\ outcome r =
           if requires_reference self && bool_decide (reference = None)
           then Raise (requires_reference_error (class_name self))
           else Return tt)
  /\ (requires_reference self = true -> reference = None ->
      exists msg, outcome r = Raise (ValueError msg))
  /\ (requires_reference self = true -> reference = None ->
      ~ (requires_input self = true /\ input = None) ->
      outcome r = Raise (requires_reference_error (class_name self)))
  /\ (requires_reference self = false -> reference <> None ->
      ~ (requires_input self = true /\ input = None) ->
      outcome r = Return tt
      /\ exists before, warnings r = before ++ [_skip_reference_warning self]).
Proof.
  unfold _check_evaluation_args.
  destruct (requires_input self), (requires_reference self),
    input as [i|], reference as [ref|]; cbn;
    repeat split; intros; try done; try tauto; eauto.
  all: try (by eexists []).
  all: by eexists [_].
Qed.

End ProtocolClaims.

Section PrepareInputClaims.
Import Schema.
Context {E : Type} `{!_EvalArgsMixin E}.
Implicit Types (self : E) (prediction prediction_b : str).
Implicit Types (reference input : option str).

Lemma prepare_input_unfold self prediction prediction_b input reference :
  EvalChain._prepare_input self prediction prediction_b input reference =
    if requires_input self && negb (EvalChain.truthy input) then
      Raise (ValueError (py "Input is require for this comparison evaluator"))
    else if requires_reference self && bool_decide (reference = None) then
      Raise (ValueError
               (py "Reference is required for this comparison evaluator"))
    else
      Return
        ((if requires_reference self
          then <[ py "reference" := default [] reference ]> else id)
           ((if requires_input self
             then <[ py "input" := default [] input ]> else id)
              (<[ py "prediction_b" := prediction_b ]>
                 (<[ py "prediction" := prediction ]> ∅)))).
Proof.
  unfold EvalChain._prepare_input.
  destruct (requires_input self), (requires_reference self),
    input as [[|c s]|], reference as [ref|]; reflexivity.
Qed.

Lemma payload_keys_distinct :
  py "prediction" <> py "prediction_b" /\ py "prediction" <> py "input"
  /\ py "prediction" <> py "reference" /\ py "prediction_b" <> py "input"
  /\ py "prediction_b" <> py "reference" /\ py "input" <> py "reference".
Proof. repeat split; discriminate. Qed.


End PrepareInputClaims.

Section ChainClaims.
Import Schema.
Context {LLM Fields Callbacks Kwargs Out : Type}.
Local Abbreviation Chain := (@EvalChain.PairwiseStringEvalChain LLM Fields).
Context (PROMPT PROMPT_WITH_REFERENCE : EvalChain.PromptTemplate).
Context (repr_set : gset str -> str) (repr_list : list str -> str).
Context (cls : LLM -> EvalChain.PromptTemplate -> Fields -> result Chain).
Context `{!@EvalChain.LLMChain Callbacks Kwargs Out Chain}.
Local Abbreviation from_llm :=
  (EvalChain.from_llm PROMPT PROMPT_WITH_REFERENCE repr_set repr_list cls).
Local Abbreviation input_variables_error :=
  (EvalChain.input_variables_error repr_set repr_list).
Implicit Types (self : Chain) (prompt : EvalChain.PromptTemplate).
Implicit Types (prediction prediction_b : str) (reference input : option str).
Implicit Types (callbacks : Callbacks) (kwargs : Kwargs).
Implicit Types
  (invoke : Chain -> gmap str str -> Callbacks -> Kwargs -> M (gmap str Out)).

Lemma expected_variables_true :
  {[ py "reference" ]} ∪ {[ py "prediction"; py "prediction_b"; py "input" ]}
  = EvalChain.expected_variables true.
Proof. unfold EvalChain.expected_variables. set_solver. Qed.

Lemma expected_variables_false :
  {[ py "prediction"; py "prediction_b"; py "input" ]}
  = EvalChain.expected_variables false.
Proof. unfold EvalChain.expected_variables. set_solver. Qed.

(** What [from_llm] does with a supplied template. *)
Lemma from_llm_supplied llm prompt rr fields :
  from_llm llm (Some prompt) rr fields =
    if bool_decide (list_to_set (EvalChain.input_variables prompt)
                    = EvalChain.expected_variables rr)
    then cls llm prompt fields
    else Raise (input_variables_error (EvalChain.expected_variables rr)
                  (EvalChain.input_variables prompt)).
Proof.
  unfold EvalChain.from_llm.
  destruct rr; cbv zeta iota beta;
    rewrite ?expected_variables_true, ?expected_variables_false;
    case_bool_decide as H1; case_bool_decide as H2; cbn; congruence.
Qed.

(** C6.  With a supplied template (and a class constructor that accepts the
    fields), [from_llm] returns the chain exactly when the set of the
    variables the template declares is the expected set; otherwise it raises
    the [ValueError] on the input variables, as it does when a reference is
    required and the template declares none. *)
Theorem from_llm_succeeds_iff llm prompt rr fields :
  (exists chain, cls llm prompt fields = Return chain) ->
  let declared : gset str := list_to_set (EvalChain.input_variables prompt) in
  ((exists chain, from_llm llm (Some prompt) rr fields = Return chain)
   <-> declared = EvalChain.expected_variables rr)
  /\ (declared = EvalChain.expected_variables rr ->
      from_llm llm (Some prompt) rr fields = cls llm prompt fields)
  /\ (declared <> EvalChain.expected_variables rr ->
      from_llm llm (Some prompt) rr fields =
        Raise (input_variables_error (EvalChain.expected_variables rr)
                 (EvalChain.input_variables prompt)))
  /\ (rr = true -> py "reference" ∉ EvalChain.input_variables prompt ->
      exists msg, from_llm llm (Some prompt) rr fields = Raise (ValueError msg)).
Proof.
  intros [chain Hc] declared. rewrite from_llm_supplied. fold declared.
  case_bool_decide as Hd.
  - repeat split; try done; eauto.
    intros -> Hn. exfalso. apply Hn.
    apply (elem_of_list_to_set (C := gset str)). fold declared. rewrite Hd.
    unfold EvalChain.expected_variables. set_solver.
  - repeat split; try done.
    + by intros [? ?].
    + intros _ _. by eexists.
Qed.

(** The two entry points of the protocol, at the chain, are the pipeline run
    with the blocking and with the awaitable invocation. *)
Lemma evaluate_is_pipeline self prediction prediction_b reference input
    callbacks kwargs :
  evaluate_string_pairs self prediction prediction_b reference input
    (callbacks, kwargs)
  = EvalChain.evaluation_pipeline EvalChain.__call__ self prediction
      prediction_b reference input callbacks kwargs.
Proof. reflexivity. Qed.

Lemma aevaluate_is_pipeline self prediction prediction_b reference input
    callbacks kwargs :
  aevaluate_string_pairs self prediction prediction_b reference input
    (callbacks, kwargs)
  = EvalChain.evaluation_pipeline EvalChain.acall self prediction
      prediction_b reference input callbacks kwargs.
Proof. reflexivity. Qed.

(** The pipeline stops before the completion when the validation or the
    payload assembly raises. *)
Lemma pipeline_stops invoke self prediction prediction_b reference input
    callbacks kwargs e :
  let check := _check_evaluation_args self reference input in
  outcome check = Raise e
  \/ outcome check = Return tt
     /\ EvalChain._prepare_input self prediction prediction_b input reference
        = Raise e ->
  EvalChain.evaluation_pipeline invoke self prediction prediction_b reference
    input callbacks kwargs = (warnings check, Raise e).
Proof.
  intros check Hs. unfold EvalChain.evaluation_pipeline. fold check.
  destruct check as [w o]. unfold outcome in Hs. cbn [snd] in Hs.
  destruct Hs as [-> | [-> Hp]]; [reflexivity|].
  rewrite Hp, bind_return, bind_lift_raise. cbn. by rewrite app_nil_r.
Qed.

(** The pipeline hands the assembled payload to the completion. *)
Lemma pipeline_invokes invoke self prediction prediction_b reference input
    callbacks kwargs payload :
  let check := _check_evaluation_args self reference input in
  outcome check = Return tt ->
  EvalChain._prepare_input self prediction prediction_b input reference
    = Return payload ->
  EvalChain.evaluation_pipeline invoke self prediction prediction_b reference
    input callbacks kwargs
  = ((check ;; invoke self payload callbacks kwargs) ≫=
       λ reply, lift (getitem reply (py "text"))).
Proof.
  intros check Hc Hp. unfold EvalChain.evaluation_pipeline. fold check.
  rewrite Hp. destruct check as [w o]. unfold outcome in Hc. cbn [snd] in Hc.
  subst o.
  rewrite !bind_return, bind_lift_return.
  destruct (invoke self payload callbacks kwargs) as [w' [reply|e]]; cbn.
  - unfold mbind, M_bind. cbn. by rewrite app_assoc.
  - reflexivity.
Qed.

(** C9.  The synchronous and the asynchronous entry point are one pipeline,
    run with the blocking and with the awaitable invocation of the
    completion: they make the same argument checks, emit the same warnings,
    raise the same error before the completion is reached, and otherwise
    hand it the same payload; they agree whenever the two invocations do. *)
Theorem sync_async_same_logic self prediction prediction_b reference input
    callbacks kwargs :
  let check := _check_evaluation_args self reference input in
  let assembled :=
    EvalChain._prepare_input self prediction prediction_b input reference in
  let sync :=
    evaluate_string_pairs self prediction prediction_b reference input
      (callbacks, kwargs) in
  let async :=
    aevaluate_string_pairs self prediction prediction_b reference input
      (callbacks, kwargs) in
  sync = EvalChain.evaluation_pipeline EvalChain.__call__ self prediction
           prediction_b reference input callbacks kwargs
  /\ async = EvalChain.evaluation_pipeline EvalChain.acall self prediction
               prediction_b reference input callbacks kwargs
  /\ (forall e,
        outcome check = Raise e
        \/ outcome check = Return tt /\ assembled = Raise e ->
        sync = (warnings check, Raise e) /\ async = (warnings check, Raise e))
  /\ (forall payload,
        outcome check = Return tt -> assembled = Return payload ->
        sync = ((check ;; EvalChain.__call__ self payload callbacks kwargs) ≫=
                  λ reply, lift (getitem reply (py "text")))
        /\ async = ((check ;; EvalChain.acall self payload callbacks kwargs) ≫=
                      λ reply, lift (getitem reply (py "text"))))
  /\ ((forall payload,
         EvalChain.acall self payload callbacks kwargs
         = EvalChain.__call__ self payload callbacks kwargs) ->
      async = sync).
Proof.
  intros check assembled sync async.
  assert (sync = EvalChain.evaluation_pipeline EvalChain.__call__ self
            prediction prediction_b reference input callbacks kwargs) as Es
    by apply evaluate_is_pipeline.
  assert (async = EvalChain.evaluation_pipeline EvalChain.acall self
            prediction prediction_b reference input callbacks kwargs) as Ea
    by apply aevaluate_is_pipeline.
  assert (forall e,
            outcome check = Raise e
            \/ outcome check = Return tt /\ assembled = Raise e ->
            sync = (warnings check, Raise e)
            /\ async = (warnings check, Raise e)) as Hstop.
  { intros e He. rewrite Es, Ea. split; by apply pipeline_stops. }
  assert (forall payload,
            outcome check = Return tt -> assembled = Return payload ->
            sync = ((check ;; EvalChain.__call__ self payload callbacks kwargs)
                      ≫= λ reply, lift (getitem reply (py "text")))
            /\ async = ((check ;; EvalChain.acall self payload callbacks kwargs)
                          ≫= λ reply, lift (getitem reply (py "text"))))
    as Hcall.
  { intros payload Hc Hp. rewrite Es, Ea. split; by apply pipeline_invokes. }
  repeat split; try done; try (by apply Hstop); try (by apply Hcall).
  intros Hsame. destruct (outcome check) as [[]|e] eqn:Hc.
  - destruct assembled as [payload|e] eqn:Hp.
    + destruct (Hcall payload eq_refl eq_refl) as [-> ->]. by rewrite Hsame.
    + destruct (Hstop e) as [-> ->]; [by right | done].
  - destruct (Hstop e) as [-> ->]; [by left | done].
Qed.

(** C10.  Whatever its model, its template and its fields, the chain
    requires an input; so does every chain that [from_llm] returns.  An
    evaluation without an input, or with an empty one, raises a
    [ValueError], on the synchronous and on the asynchronous path alike. *)
Theorem chain_requires_input self :
  requires_input self = true
  /\ (forall llm (supplied : option EvalChain.PromptTemplate) rr fields chain,
        from_llm llm supplied rr fields = Return chain ->
        requires_input chain = true)
  /\ (forall prediction prediction_b reference input callbacks kwargs,
        input = None \/ input = Some [] ->
        EvalChain._prepare_input self prediction prediction_b input reference
        = Raise (ValueError
                   (py "Input is require for this comparison evaluator"))
        /\ exists w msg,
             evaluate_string_pairs self prediction prediction_b reference
               input (callbacks, kwargs) = (w, Raise (ValueError msg))
             /\ aevaluate_string_pairs self prediction prediction_b reference
                  input (callbacks, kwargs) = (w, Raise (ValueError msg))).
Proof.
  split; [reflexivity|]. split; [reflexivity|].
  intros prediction prediction_b reference input callbacks kwargs Hin.
  assert (EvalChain._prepare_input self prediction prediction_b input reference
          = Raise (ValueError
                     (py "Input is require for this comparison evaluator")))
    as Hp by (by destruct Hin as [-> | ->]).
  split; [exact Hp|].
  rewrite evaluate_is_pipeline, aevaluate_is_pipeline.
  destruct (outcome (_check_evaluation_args self reference input))
    as [[]|e] eqn:Hc.
  - eexists _, _. split; apply pipeline_stops; right; by split.
  - assert (exists msg, e = ValueError msg) as [msg ->].
    { revert Hc. unfold _check_evaluation_args.
      destruct input, (requires_reference self), reference; cbn;
        intros [= <-] || intros [=]; by eexists. }
    eexists _, _. split; apply pipeline_stops; by left.
Qed.

End ChainClaims.

(* ===================================================================== *)
(** ** The claims at concrete inputs *)
(* ===================================================================== *)

Section Concrete.
Import Schema Scenario.

Lemma from_llm_succeeds_iff_witness :
  (exists chain, accept tt plain_template tt = Return chain)
  /\ EvalChain.from_llm plain_template reference_template (λ _, []) (λ _, [])
       accept tt (Some plain_template) false tt
     = Return plain_chain
  /\ exists msg,
       EvalChain.from_llm plain_template reference_template (λ _, []) (λ _, [])
         accept tt (Some plain_template) true tt
       = Raise (ValueError msg).
Proof.
  assert (exists chain, accept tt plain_template tt = Return chain) as Hc
    by (by eexists).
  split; [exact Hc|]. split.
  - refine (proj1 (proj2 (from_llm_succeeds_iff plain_template
      reference_template (λ _, []) (λ _, []) accept tt plain_template false tt
      Hc)) _).
    by_evaluation.
  - refine (proj2 (proj2 (proj2 (from_llm_succeeds_iff plain_template
      reference_template (λ _, []) (λ _, []) accept tt plain_template true tt
      Hc))) eq_refl _).
    by_evaluation.
Defined.

(** C8, as stated, fails where the input is required and missing while a
    reference is supplied that is not required: the check raises on the
    input, and no warning on the reference is emitted. *)
Lemma check_evaluation_args_counterexample :
  requires_input plain_chain = true
  /\ requires_reference plain_chain = false
  /\ _check_evaluation_args plain_chain (Some (py "H2O")) None
     = ([], Raise (ValueError
                     (py "PairwiseStringEvalChain requires an input string."))).
Proof. repeat split; vm_compute; reflexivity. Qed.

(** The scenario of the specification, end to end. *)
Example evaluate_water :
  @evaluate_string_pairs _ _ _ _
    (@EvalChain.chain_evaluator _ _ _ _ _ (canned_chain
       (py "Both are correct, B is more detailed." ++ LF :: py "[[B]]")))
    plain_chain (py "H2O") (py "Water is H2O") None
    (Some (py "What is the formula for water?")) (tt, tt)
  = ([], Return {| reasoning := py "Both are correct, B is more detailed.";
                   value := Some (py "B"); score := Some 0%Q |}).
Proof. vm_compute. reflexivity. Qed.

End Concrete.

(* ===================================================================== *)
(** ** More on stripping *)
(* ===================================================================== *)

Section StripLemmas.
Implicit Types (p : N -> bool) (s a b : str) (c sep : N).

Lemma drop_while_split p s :
  exists pre, s = pre ++ drop_while p s /\ forallb p pre = true.
Proof.
  induction s as [|c t (pre & E & Hp)]; simpl.
  - by exists [].
  - destruct (p c) eqn:Hc.
    + exists (c :: pre). simpl. rewrite Hc, Hp. split; [by f_equal | done].
    + by exists [].
Qed.

Lemma drop_while_first p s c t : drop_while p s = c :: t -> p c = false.
Proof.
  induction s as [|x s IH]; simpl; [done|].
  destruct (p x) eqn:Hx; [exact IH|]. by intros [= <- _].
Qed.

Lemma forallb_reverse p s : forallb p (reverse s) = forallb p s.
Proof.
  induction s as [|c t IH]; [done|].
  rewrite reverse_cons, forallb_app, IH. simpl. by rewrite andb_true_r, andb_comm.
Qed.

Lemma rstrip_with_split p s :
  exists post, s = rstrip_with p s ++ post /\ forallb p post = true.
Proof.
  destruct (drop_while_split p (reverse s)) as (pre & E & Hp).
  exists (reverse pre). split; [|by rewrite forallb_reverse].
  unfold rstrip_with. rewrite <- reverse_app, <- E. by rewrite reverse_involutive.
Qed.

Lemma strip_with_split p s :
  exists pre post,
    s = pre ++ strip_with p s ++ post
    /\ forallb p pre = true /\ forallb p post = true.
Proof.
  destruct (drop_while_split p s) as (pre & E & Hpre).
  destruct (rstrip_with_split p (drop_while p s)) as (post & E' & Hpost).
  exists pre, post. unfold strip_with, lstrip_with. by rewrite <- E', <- E.
Qed.

Lemma strip_with_first p s c t : strip_with p s = c :: t -> p c = false.
Proof.
  unfold strip_with, lstrip_with. intros H.
  destruct (rstrip_with_split p (drop_while p s)) as (post & E & _).
  rewrite H in E. by apply (drop_while_first p s c (t ++ post)).
Qed.

Lemma rstrip_with_all p a b :
  forallb p b = true -> rstrip_with p (a ++ b) = rstrip_with p a.
Proof.
  intros H. unfold rstrip_with.
  by rewrite reverse_app, drop_while_all by (by rewrite forallb_reverse).
Qed.

(** Code points of the class removed, on either side, do not matter. *)
Lemma strip_with_padded p a s b :
  forallb p a = true -> forallb p b = true ->
  strip_with p (a ++ s ++ b) = strip_with p s.
Proof.
  intros Ha Hb. unfold strip_with, lstrip_with.
  rewrite drop_while_all by done.
  destruct (drop_while p s) as [|c t] eqn:E.
  - apply drop_while_nil in E.
    assert (drop_while p (s ++ b) = []) as ->; [|done].
    apply drop_while_nil. by rewrite forallb_app, E, Hb.
  - rewrite drop_while_app_l by (by rewrite E). rewrite E.
    by apply rstrip_with_all.
Qed.

Lemma strip_with_idemp p s : strip_with p (strip_with p s) = strip_with p s.
Proof.
  destruct (strip_with_split p s) as (pre & post & E & Hpre & Hpost).
  rewrite E at 2. by rewrite strip_with_padded.
Qed.

(** A string that holds no code point of the class is left as it is. *)
Lemma strip_with_free p s :
  (forall c, c ∈ s -> p c = false) -> strip_with p s = s.
Proof.
  intros H. unfold strip_with, lstrip_with.
  assert (forall u, (forall c, c ∈ u -> p c = false) -> drop_while p u = u) as D.
  { intros [|c u] Hu; [done|]. apply drop_while_head, Hu. by left. }
  rewrite D by done. apply rstrip_with_fixed, D.
  intros c Hc. apply H. by apply elem_of_reverse.
Qed.

Lemma forallb_single_replicate c s :
  forallb (in_chars [c]) s = true -> s = replicate (length s) c.
Proof.
  induction s as [|x s IH]; simpl; [done|].
  unfold in_chars at 1. simpl. rewrite orb_false_r.
  intros [->%N.eqb_eq Hs]%andb_true_iff. by rewrite <- IH.
Qed.

Lemma rsplit1_spec sep s :
  (sep ∉ s) /\ rsplit1 sep s = [s]
  \/ exists a b, s = a ++ sep :: b /\ (sep ∉ b) /\ rsplit1 sep s = [a; b].
Proof.
  destruct (decide (sep ∈ s)) as [Hin|Hout].
  - right. apply list_elem_of_split_r in Hin as (a & b & -> & Hb).
    exists a, b. by rewrite rsplit1_cut.
  - left. by rewrite rsplit1_whole.
Qed.

End StripLemmas.

(* ===================================================================== *)
(** ** More on the verdict parser *)
(* ===================================================================== *)

Section ParserProperties.
Implicit Types (text reasoning line token : str) (x y : N) (r : parsed).
Implicit Types (a b c d : nat).

(** The verdict kept for a token, and the outcome for a reasoning and a
    token, as [parse] computes them. *)
Lemma parse_inversion text r :
  parse text = Return r ->
  exists line,
    strip text = reasoning r ++ LF :: line /\ (LF ∉ line)
    /\ let token := strip_chars (py "]") (strip_chars (py "[") line) in
       token ∈ verdicts
       /\ value r = (if bool_decide (token = py "C") then None else Some token)
       /\ score r = score_table !! value r.
Proof.
  intros Hp.
  destruct (rsplit1_spec LF (strip text)) as [[Hn _]|(a & b & E & Hb & _)].
  - by rewrite parse_single_line in Hp.
  - rewrite (parse_split text a b E Hb) in Hp. cbv zeta in Hp.
    case_bool_decide as Hin; [|done]. injection Hp as <-.
    exists b. by cbn.
Qed.

Lemma bracketed_free (p : N -> bool) a b c d x :
  p 91%N = false -> p 93%N = false -> p x = false ->
  forall y, y ∈ bracketed a b c d [x] -> p y = false.
Proof.
  intros Ho Hc Hx y. unfold bracketed.
  rewrite !elem_of_app, !elem_of_replicate, list_elem_of_singleton.
  intros [[-> _]|[[-> _]|[->|[[-> _]|[-> _]]]]]; done.
Qed.

Lemma bracketed_not_nil a b c d x : bracketed a b c d [x] <> [].
Proof.
  unfold bracketed. intros E.
  apply app_eq_nil in E as [_ E]. apply app_eq_nil in E as [_ E]. done.
Qed.

Lemma strip_brackets_bracketed a b c d x :
  x <> 91%N -> x <> 93%N ->
  strip_chars (py "]") (strip_chars (py "[") (bracketed a b c d [x])) = [x].
Proof.
  intros Ho Hc.
  assert (forall k y, y <> k -> in_chars [k] y = false) as Hne
    by (intros k y Hy; by apply in_chars_single, N.eqb_neq).
  assert (forall k n, forallb (in_chars [k]) (replicate n k) = true) as Hrep.
  { intros k n. apply forallb_replicate. unfold in_chars. simpl.
    by rewrite N.eqb_refl. }
  change (py "[") with [91%N]. change (py "]") with [93%N].
  unfold strip_chars, bracketed.
  rewrite (app_assoc (replicate b _)), (app_assoc _ (replicate c _)).
  rewrite strip_with_padded by apply Hrep.
  rewrite (strip_with_free (in_chars [91%N])).
  - rewrite <- app_assoc. rewrite strip_with_padded by apply Hrep.
    apply strip_with_free. intros y ->%list_elem_of_singleton. by apply Hne.
  - intros y. rewrite !elem_of_app, !elem_of_replicate, list_elem_of_singleton.
    intros [[[-> _]| ->]|[-> _]]; by apply Hne.
Qed.

Lemma strip_brackets_shape line x :
  x <> 91%N -> x <> 93%N ->
  strip_chars (py "]") (strip_chars (py "[") line) = [x] ->
  exists a b c d, line = bracketed a b c d [x].
Proof.
  intros Ho Hc. change (py "[") with [91%N]. change (py "]") with [93%N].
  unfold strip_chars. intros E.
  destruct (strip_with_split (in_chars [91%N]) line)
    as (pre & post & E1 & Hpre & Hpost).
  destruct (strip_with_split (in_chars [93%N])
              (strip_with (in_chars [91%N]) line))
    as (pre' & post' & E2 & Hpre' & Hpost').
  rewrite E in E2.
  exists (length pre), (length pre'), (length post'), (length post).
  unfold bracketed.
  rewrite <- (forallb_single_replicate _ _ Hpre),
    <- (forallb_single_replicate _ _ Hpost),
    <- (forallb_single_replicate _ _ Hpre'),
    <- (forallb_single_replicate _ _ Hpost').
  rewrite E1 at 1. rewrite E2. by rewrite <- !app_assoc.
Qed.

Lemma verdict_one_letter token :
  token ∈ verdicts ->
  exists x, token = [x] /\ x <> 91%N /\ x <> 93%N /\ isspace x = false.
Proof.
  intros [-> | [-> | ->]]%elem_of_verdicts; eexists; by repeat split.
Qed.

End ParserProperties.

Section ParserExtras.
Implicit Types (text reasoning line token : str) (x y : N) (r : parsed).
Implicit Types (a b c d : nat).

Lemma rstrip_with_free (p : N -> bool) line :
  (forall y, y ∈ line -> p y = false) -> rstrip_with p line = line.
Proof.
  intros H. apply rstrip_with_fixed.
  destruct (reverse line) as [|y u] eqn:E; [done|].
  apply drop_while_head, H, elem_of_reverse. rewrite E. by left.
Qed.

(** X1.  [parse] returns a result exactly when the trimmed reply ends in a
    line, after a line feed, whose token without brackets is ["A"], ["B"] or
    ["C"]; the reasoning is what precedes that line feed, the value is the
    token ([None] for ["C"]) and the score is its entry in the table. *)
Theorem parse_returns_iff text r :
  parse text = Return r
  <-> exists line,
        strip text = reasoning r ++ LF :: line /\ (LF ∉ line)
        /\ let token := strip_chars (py "]") (strip_chars (py "[") line) in
           token ∈ verdicts
           /\ value r
              = (if bool_decide (token = py "C") then None else Some token)
           /\ score r = score_table !! value r.
Proof.
  split; [apply parse_inversion|].
  intros (line & Hs & Hl & Hin & Hv & Hsc).
  rewrite (parse_split text (reasoning r) line Hs Hl). cbv zeta.
  rewrite bool_decide_eq_true_2 by done.
  destruct r as [rs v sc]. cbn in *. by subst.
Qed.

(** X2.  Whitespace around the reply does not change the outcome of
    [parse]; in particular a reply and its trimmed text parse alike. *)
Theorem parse_ignores_outer_whitespace (before after : str) text :
  blank before = true -> blank after = true ->
  parse (before ++ text ++ after) = parse text
  /\ parse (strip text) = parse text.
Proof.
  intros Hb Ha. unfold parse, strip.
  by rewrite strip_with_padded, strip_with_idemp.
Qed.

Lemma parse_ignores_outer_whitespace_witness :
  blank (py "  " ++ [LF]) = true /\ blank [13%N; LF] = true
  /\ parse ((py "  " ++ [LF]) ++ (py "A is better." ++ LF :: py "[[A]]")
            ++ [13%N; LF])
     = parse (py "A is better." ++ LF :: py "[[A]]").
Proof.
  split; [reflexivity|]. split; [reflexivity|].
  exact (proj1 (parse_ignores_outer_whitespace (py "  " ++ [LF]) [13%N; LF]
    (py "A is better." ++ LF :: py "[[A]]") eq_refl eq_refl)).
Defined.

(** X3.  The reasoning of a result is never empty and never starts with
    whitespace. *)
Theorem parse_reasoning_trimmed text r :
  parse text = Return r ->
  exists x rest, reasoning r = x :: rest /\ isspace x = false.
Proof.
  intros (line & Hs & _)%parse_inversion.
  destruct (reasoning r) as [|x rest]; simpl in Hs.
  - by apply (strip_with_first isspace) in Hs.
  - exists x, rest. split; [done|]. by apply (strip_with_first isspace) in Hs.
Qed.

Lemma parse_reasoning_trimmed_witness :
  parse ([9%N] ++ py " A is better. " ++ LF :: py "[[A]]")
  = Return {| reasoning := py "A is better. "; value := Some (py "A");
              score := Some 1%Q |}
  /\ exists x rest, py "A is better. " = x :: rest /\ isspace x = false.
Proof.
  assert (parse ([9%N] ++ py " A is better. " ++ LF :: py "[[A]]")
          = Return {| reasoning := py "A is better. "; value := Some (py "A");
                      score := Some 1%Q |}) as E by (vm_compute; reflexivity).
  split; [exact E|]. exact (parse_reasoning_trimmed _ _ E).
Defined.

(** X4.  The two bracket removals work on both ends of the line: a token
    after any number of opening and then of closing brackets, and before any
    number of closing and then of opening brackets, is read as the token
    alone; after a reasoning that is not blank such a line around ["A"]
    parses to the value ["A"]. *)
Theorem parse_accepts_bracketed reasoning a b c d :
  blank reasoning = false ->
  strip_chars (py "]") (strip_chars (py "[") (bracketed a b c d (py "A")))
  = py "A"
  /\ parse (reasoning ++ LF :: bracketed a b c d (py "A"))
     = Return {| reasoning := lstrip reasoning; value := Some (py "A");
                 score := Some 1%Q |}.
Proof.
  intros Hr.
  assert (strip_chars (py "]")
            (strip_chars (py "[") (bracketed a b c d (py "A"))) = py "A")
    as Es by (by apply (strip_brackets_bracketed a b c d 65)).
  split; [exact Es|].
  rewrite (parse_split _ (lstrip reasoning) (bracketed a b c d (py "A"))).
  - rewrite Es. reflexivity.
  - apply strip_reply; [done | apply (bracketed_not_nil a b c d 65) |].
    apply rstrip_with_free. by apply (bracketed_free isspace a b c d 65).
  - intros Hin.
    by pose proof (bracketed_free (N.eqb LF) a b c d 65 eq_refl eq_refl eq_refl
                     LF Hin).
Qed.

Lemma parse_accepts_bracketed_witness :
  blank (py "A is better.") = false
  /\ parse (py "A is better." ++ LF :: py "[]]A][[")
     = Return {| reasoning := py "A is better."; value := Some (py "A");
                 score := Some 1%Q |}.
Proof.
  split; [reflexivity|].
  exact (proj2 (parse_accepts_bracketed (py "A is better.") 1 2 1 2 eq_refl)).
Defined.

(** X5.  Nothing else is accepted: when [parse] returns, the last line of
    the trimmed reply is one of the letters A, B, C between brackets of that
    shape, with no other character on the line. *)
Theorem parse_accepts_only_bracketed text r :
  parse text = Return r ->
  exists a b c d x,
    strip text = reasoning r ++ LF :: bracketed a b c d [x]
    /\ (x = 65%N \/ x = 66%N \/ x = 67%N).
Proof.
  intros (line & Hs & _ & Hin & _)%parse_inversion.
  destruct (verdict_one_letter _ Hin) as (x & Ex & Ho & Hc & _).
  destruct (strip_brackets_shape line x Ho Hc Ex) as (a & b & c & d & ->).
  exists a, b, c, d, x. split; [done|].
  rewrite Ex in Hin. apply elem_of_verdicts in Hin.
  destruct Hin as [[= ->] | [[= ->] | [= ->]]]; tauto.
Qed.

Lemma parse_accepts_only_bracketed_witness :
  parse (py "Equal." ++ LF :: py "[[C]]")
  = Return {| reasoning := py "Equal."; value := None;
              score := Some (1 # 2)%Q |}
  /\ exists a b c d x,
       strip (py "Equal." ++ LF :: py "[[C]]")
       = py "Equal." ++ LF :: bracketed a b c d [x]
       /\ (x = 65%N \/ x = 66%N \/ x = 67%N).
Proof.
  assert (parse (py "Equal." ++ LF :: py "[[C]]")
          = Return {| reasoning := py "Equal."; value := None;
                      score := Some (1 # 2)%Q |}) as E
    by (vm_compute; reflexivity).
  split; [exact E|]. exact (parse_accepts_only_bracketed _ _ E).
Defined.

(** X6.  For two replies whose trimmed texts both hold a line feed, the
    outcome of [parse] but for the reasoning is decided by the last line of
    the trimmed reply: with the same last line the two replies get the same
    value and score, or raise the same error. *)
Theorem parse_decided_by_last_line text text' :
  LF ∈ strip text -> LF ∈ strip text' ->
  last_line text = last_line text' ->
  (forall r, parse text = Return r ->
     exists r', parse text' = Return r'
                /\ value r' = value r /\ score r' = score r)
  /\ (forall e, parse text = Raise e -> parse text' = Raise e).
Proof.
  intros (reasoning & Hs & Hl)%trimmed_cut (reasoning' & Hs' & Hl')%trimmed_cut
    El.
  rewrite <- El in Hs', Hl'.
  rewrite (parse_split text reasoning _ Hs Hl),
    (parse_split text' reasoning' _ Hs' Hl'). cbv zeta.
  case_bool_decide; split; intros ? [= <-]; try done.
  by eexists.
Qed.

Lemma parse_decided_by_last_line_witness :
  (LF ∈ strip (py "Short." ++ LF :: py "[[B]]"))
  /\ (LF ∈ strip (py "A longer" ++ LF :: py "reasoning." ++ LF :: py "[[B]]"))
  /\ last_line (py "Short." ++ LF :: py "[[B]]")
     = last_line (py "A longer" ++ LF :: py "reasoning." ++ LF :: py "[[B]]")
  /\ parse (py "Short." ++ LF :: py "[[B]]")
     = Return {| reasoning := py "Short."; value := Some (py "B");
                 score := Some 0%Q |}
  /\ exists r',
       parse (py "A longer" ++ LF :: py "reasoning." ++ LF :: py "[[B]]")
       = Return r'
       /\ value r' = Some (py "B") /\ score r' = Some 0%Q.
Proof.
  assert (LF ∈ strip (py "Short." ++ LF :: py "[[B]]")) as H1
    by by_evaluation.
  assert (LF ∈ strip (py "A longer" ++ LF :: py "reasoning." ++ LF
                      :: py "[[B]]")) as H2 by by_evaluation.
  assert (parse (py "Short." ++ LF :: py "[[B]]")
          = Return {| reasoning := py "Short."; value := Some (py "B");
                      score := Some 0%Q |}) as E by (vm_compute; reflexivity).
  split; [exact H1|]. split; [exact H2|]. split; [reflexivity|].
  split; [exact E|].
  exact (proj1 (parse_decided_by_last_line _ _ H1 H2 eq_refl) _ E).
Defined.

End ParserExtras.

(* ===================================================================== *)
(** ** More on the argument protocol *)
(* ===================================================================== *)

Section ProtocolExtras.
Import Schema.
Context {Kwargs Out E : Type} `{!_EvalArgsMixin E}.
Implicit Types (self : E) (reference input : option str) (kwargs : Kwargs).
Implicit Types (prediction prediction_b : str).

(** The check returns exactly when nothing required is missing. *)
Lemma check_returns_iff self reference input :
  outcome (_check_evaluation_args self reference input) = Return tt
  <-> (requires_input self = true -> input <> None)
      /\ (requires_reference self = true -> reference <> None).
Proof.
  unfold _check_evaluation_args.
  destruct (requires_input self), (requires_reference self),
    input as [i|], reference as [ref|]; cbn; split; try done.
  all: intros [Hi Hr]; try (by destruct Hi); by destruct Hr.
Qed.

Lemma check_raises self reference input e :
  outcome (_check_evaluation_args self reference input) = Raise e ->
  e = requires_input_error (class_name self)
  /\ requires_input self = true /\ input = None
  /\ warnings (_check_evaluation_args self reference input) = []
  \/ e = requires_reference_error (class_name self)
     /\ requires_reference self = true /\ reference = None.
Proof.
  unfold _check_evaluation_args.
  destruct (requires_input self), (requires_reference self),
    input as [i|], reference as [ref|]; cbn; intros [= <-]; tauto.
Qed.

(** X7.  The argument check returns exactly when no required argument is
    missing, and then its warnings are the one on the input, if an input is
    supplied without being required, followed by the one on the reference,
    likewise; when it raises, the error is the one on the input, with no
    warning emitted, or the one on the reference. *)
Theorem check_evaluation_args_outcome self reference input :
  let r := _check_evaluation_args self reference input in
  (outcome r = Return tt
   <-> (requires_input self = true -> input <> None)
       /\ (requires_reference self = true -> reference <> None))
  /\ (outcome r = Return tt ->
      warnings r
      = (if negb (requires_input self) && bool_decide (input <> None)
         then [_skip_input_warning self] else [])
        ++ (if negb (requires_reference self)
               && bool_decide (reference <> None)
            then [_skip_reference_warning self] else []))
  /\ (forall e, outcome r = Raise e ->
      e = requires_input_error (class_name self) /\ warnings r = []
      \/ e = requires_reference_error (class_name self)).
Proof.
  cbv zeta. split; [apply check_returns_iff|]. split.
  - unfold _check_evaluation_args.
    destruct (requires_input self), (requires_reference self),
      input as [i|], reference as [ref|]; cbn; done.
  - intros e He. apply check_raises in He. tauto.
Qed.

Section Pairs.
Context `{!PairwiseStringEvaluator (Kwargs := Kwargs) (Out := Out) E}.

(** X8.  An evaluator of pairs that keeps the asynchronous method of the
    protocol never returns a result from [aevaluate_string_pairs]: the
    call raises the error of the argument check when there is one, and
    otherwise a [NotImplementedError] that names the class, after the
    warnings of the check. *)
Theorem aevaluate_string_pairs_not_implemented self prediction prediction_b
    reference input kwargs :
  _aevaluate_string_pairs self prediction prediction_b reference input kwargs
  = protocol_aevaluate_string_pairs self prediction prediction_b reference
      input kwargs ->
  let check := _check_evaluation_args self reference input in
  aevaluate_string_pairs self prediction prediction_b reference input kwargs
  = (warnings check,
     Raise (match outcome check with
            | Raise e => e
            | Return _ =>
                NotImplementedError
                  (class_name self ++
                   py " hasn't implemented an async aevaluate_string_pairs method.")
            end))
  /\ forall v,
       outcome (aevaluate_string_pairs self prediction prediction_b reference
                  input kwargs) <> Return v.
Proof.
  intros Hd check.
  assert (aevaluate_string_pairs self prediction prediction_b reference input
            kwargs
          = (warnings check,
             Raise (match outcome check with
                    | Raise e => e
                    | Return _ =>
                        NotImplementedError
                          (class_name self ++
                           py " hasn't implemented an async aevaluate_string_pairs method.")
                    end))) as Ea.
  { unfold aevaluate_string_pairs. fold check. rewrite Hd.
    destruct check as [w [[]|e]]; [|reflexivity].
    rewrite bind_return. cbn. by rewrite app_nil_r. }
  split; [exact Ea|]. intros v. by rewrite Ea.
Qed.

End Pairs.

Section Strings.
Context `{!StringEvaluator (Kwargs := Kwargs) (Out := Out) E}.

(** X9.  [evaluate_strings] and [aevaluate_strings] run the evaluator only
    behind the argument check: a required input that is [None] raises the
    error on the input, with no warning; otherwise a required reference that
    is [None] raises the error on the reference; otherwise the outcome is
    the one of the evaluator's own method, after the warnings of the check.
    With the asynchronous method of the protocol, [aevaluate_strings] never
    returns a result. *)
Theorem evaluate_strings_behind_check self prediction reference input kwargs :
  let check := _check_evaluation_args self reference input in
  let sync := evaluate_strings self prediction reference input kwargs in
  let async := aevaluate_strings self prediction reference input kwargs in
  (requires_input self = true -> input = None ->
     sync = ([], Raise (requires_input_error (class_name self)))
     /\ async = ([], Raise (requires_input_error (class_name self))))
  /\ ((requires_input self = true -> input <> None) ->
      requires_reference self = true -> reference = None ->
      sync = (warnings check, Raise (requires_reference_error (class_name self)))
      /\ async
         = (warnings check, Raise (requires_reference_error (class_name self))))
  /\ ((requires_input self = true -> input <> None) ->
      (requires_reference self = true -> reference <> None) ->
      warnings sync
         = warnings check
           ++ warnings (_evaluate_strings self prediction reference input kwargs)
      /\ outcome sync
         = outcome (_evaluate_strings self prediction reference input kwargs)
      /\ warnings async
         = warnings check
           ++ warnings (_aevaluate_strings self prediction reference input kwargs)
      /\ outcome async
         = outcome (_aevaluate_strings self prediction reference input kwargs))
  /\ (_aevaluate_strings self prediction reference input kwargs
      = protocol_aevaluate_strings self prediction reference input kwargs ->
      forall v, outcome async <> Return v).
Proof.
  intros check sync async. unfold sync, async, evaluate_strings,
    aevaluate_strings. fold check.
  split; [|split; [|split]].
  - intros Hi ->. subst check.
    by rewrite check_evaluation_args_input_missing.
  - intros Hi Hr Hn. destruct (outcome check) as [[]|e] eqn:Hc.
    + apply check_returns_iff in Hc as [_ Hc]. by destruct (Hc Hr).
    + destruct (check_raises _ _ _ _ Hc) as [(_ & Hi' & Hn' & _)|(-> & _)].
      * by destruct (Hi Hi').
      * destruct check as [w o]. cbn in Hc. by subst o.
  - intros Hi Hr.
    assert (outcome check = Return tt) as Hc by (by apply check_returns_iff).
    destruct check as [w o]. cbn in Hc. subst o. by rewrite !bind_return.
  - intros Hd v. rewrite Hd. by destruct check as [w [[]|e]].
Qed.

End Strings.
End ProtocolExtras.

(* ===================================================================== *)
(** ** More on the payload and on the chain *)
(* ===================================================================== *)

Section PayloadExtras.
Import Schema.
Context {E : Type} `{!_EvalArgsMixin E}.
Implicit Types (self : E) (prediction prediction_b : str).
Implicit Types (reference input : option str) (payload : gmap str str).

(** The payload that [_prepare_input] returns, when it returns. *)
Lemma prepare_input_returns self prediction prediction_b input reference
    payload :
  EvalChain._prepare_input self prediction prediction_b input reference
  = Return payload ->
  payload
  = (if requires_reference self
     then <[ py "reference" := default [] reference ]> else id)
      ((if requires_input self
        then <[ py "input" := default [] input ]> else id)
         (<[ py "prediction_b" := prediction_b ]>
            (<[ py "prediction" := prediction ]> ∅)))
  /\ (requires_input self = true -> EvalChain.truthy input = true)
  /\ (requires_reference self = true -> reference <> None).
Proof.
  rewrite prepare_input_unfold.
  destruct (requires_input self), (EvalChain.truthy input); cbn;
    try discriminate;
    destruct (requires_reference self), reference; cbn;
    try discriminate; intros [= <-]; done.
Qed.

(** X10.  The payload holds [prediction] and [prediction_b], the input
    exactly when the evaluator requires one, and the reference exactly when
    the evaluator requires one: an argument that is supplied without being
    required is left out. *)
Theorem prepare_input_payload self prediction prediction_b input reference
    payload :
  EvalChain._prepare_input self prediction prediction_b input reference
  = Return payload ->
  dom payload
  = {[ py "prediction"; py "prediction_b" ]}
    ∪ (if requires_input self then {[ py "input" ]} else ∅)
    ∪ (if requires_reference self then {[ py "reference" ]} else ∅)
  /\ payload !! py "input" = (if requires_input self then input else None)
  /\ payload !! py "reference"
     = (if requires_reference self then reference else None).
Proof.
  destruct payload_keys_distinct as (K1 & K2 & K3 & K4 & K5 & K6).
  intros (-> & Hi & Hr)%prepare_input_returns.
  destruct (requires_input self) eqn:Ei, (requires_reference self) eqn:Er;
    cbn [id].
  all: try (destruct input as [[|x i]|]; [by specialize (Hi eq_refl) | |
                                          by specialize (Hi eq_refl)]).
  all: try (destruct reference as [ref|]; [|by destruct (Hr eq_refl)]).
  all: cbn [default]; (split; [|by simplify_map_eq]).
  all: rewrite !dom_insert_L, dom_empty_L; set_solver.
Qed.

End PayloadExtras.

Section ChainExtras.
Import Schema.
Context {LLM Fields Callbacks Kwargs Out : Type}.
Local Abbreviation Chain := (@EvalChain.PairwiseStringEvalChain LLM Fields).
Context (PROMPT PROMPT_WITH_REFERENCE : EvalChain.PromptTemplate).
Context (repr_set : gset str -> str) (repr_list : list str -> str).
Context (cls : LLM -> EvalChain.PromptTemplate -> Fields -> result Chain).
Context `{!@EvalChain.LLMChain Callbacks Kwargs Out Chain}.
Local Abbreviation from_llm :=
  (EvalChain.from_llm PROMPT PROMPT_WITH_REFERENCE repr_set repr_list cls).
Local Abbreviation input_variables_error :=
  (EvalChain.input_variables_error repr_set repr_list).
Implicit Types (self chain : Chain) (prompt : EvalChain.PromptTemplate).
Implicit Types (supplied : option EvalChain.PromptTemplate).
Implicit Types (llm : LLM) (fields : Fields) (rr : bool).
Implicit Types (prediction prediction_b : str) (reference input : option str).
Implicit Types (callbacks : Callbacks) (kwargs : Kwargs).

Local Abbreviation default_template rr :=
  (if rr then PROMPT_WITH_REFERENCE else PROMPT).

Lemma from_llm_none llm rr fields :
  from_llm llm None rr fields
  = from_llm llm (Some (default_template rr)) rr fields.
Proof. by destruct rr. Qed.

(** What [from_llm] does, with or without a supplied template. *)
Lemma from_llm_any llm supplied rr fields :
  from_llm llm supplied rr fields
  = let prompt := default (default_template rr) supplied in
    if bool_decide (list_to_set (EvalChain.input_variables prompt)
                    = EvalChain.expected_variables rr)
    then cls llm prompt fields
    else Raise (input_variables_error (EvalChain.expected_variables rr)
                  (EvalChain.input_variables prompt)).
Proof.
  destruct supplied as [prompt|]; cbn [default].
  - apply from_llm_supplied.
  - rewrite from_llm_none. apply from_llm_supplied.
Qed.

Lemma reference_expected rr :
  py "reference" ∈ EvalChain.expected_variables rr <-> rr = true.
Proof.
  unfold EvalChain.expected_variables. destruct rr.
  - split; [done|]. intros _. set_solver.
  - split; [|done]. rewrite !elem_of_union, !elem_of_singleton, elem_of_empty.
    intros [[[E|E]|E]|[]]; discriminate.
Qed.

Lemma payload_dom (ri rr : bool) (a b i r : str) :
  dom ((if rr then <[ py "reference" := r ]> else id)
         ((if ri then <[ py "input" := i ]> else id)
            (<[ py "prediction_b" := b ]>
               (<[ py "prediction" := a ]> (∅ : gmap str str)))))
  = {[ py "prediction"; py "prediction_b" ]}
    ∪ (if ri then {[ py "input" ]} else ∅)
    ∪ (if rr then {[ py "reference" ]} else ∅).
Proof.
  destruct ri, rr; cbn [id]; rewrite !dom_insert_L, dom_empty_L; set_solver.
Qed.

(** X11.  Without a supplied template [from_llm] behaves as with the
    default one supplied, the template with a reference slot when a
    reference is required and the plain one otherwise: the default is held
    to the same check of its variables. *)
Theorem from_llm_default_template llm rr fields :
  from_llm llm None rr fields
  = from_llm llm (Some (default_template rr)) rr fields
  /\ ((exists chain, from_llm llm None rr fields = Return chain) ->
      list_to_set (EvalChain.input_variables (default_template rr))
      = EvalChain.expected_variables rr)
  /\ (list_to_set (EvalChain.input_variables (default_template rr))
      <> EvalChain.expected_variables rr ->
      from_llm llm None rr fields
      = Raise (input_variables_error (EvalChain.expected_variables rr)
                 (EvalChain.input_variables (default_template rr)))).
Proof.
  split; [apply from_llm_none|].
  rewrite (from_llm_any llm None rr fields). cbn [default]. cbv zeta.
  case_bool_decide as Hd; split; try done. by intros [? ?].
Qed.

(** X12.  When the class constructor keeps the template it is given, a
    chain that [from_llm] returns requires a reference exactly when
    [requires_reference] was passed as true, and the variables of its
    template are the expected ones. *)
Theorem from_llm_fixes_requires_reference llm supplied rr fields chain :
  (forall l p f c, cls l p f = Return c -> EvalChain.prompt c = p) ->
  from_llm llm supplied rr fields = Return chain ->
  requires_reference chain = rr
  /\ EvalChain.prompt chain = default (default_template rr) supplied
  /\ list_to_set (EvalChain.input_variables (EvalChain.prompt chain))
     = EvalChain.expected_variables rr.
Proof.
  intros Hcls. rewrite from_llm_any. cbv zeta.
  case_bool_decide as Hd; [|done]. intros Hc%Hcls.
  rewrite Hc. split; [|done].
  cbn. unfold EvalChain.requires_reference. rewrite Hc.
  pose proof (reference_expected rr) as Hr. rewrite <- Hd in Hr.
  rewrite (elem_of_list_to_set (C := gset str)) in Hr.
  destruct rr; [by apply bool_decide_eq_true_2, Hr|].
  apply bool_decide_eq_false_2. intros Hin. by apply Hr in Hin.
Qed.

(** X13.  For such a chain the keys of every payload that [_prepare_input]
    returns are the variables its template declares. *)
Theorem payload_matches_template llm supplied rr fields chain prediction
    prediction_b input reference (payload : gmap str str) :
  (forall l p f c, cls l p f = Return c -> EvalChain.prompt c = p) ->
  from_llm llm supplied rr fields = Return chain ->
  EvalChain._prepare_input chain prediction prediction_b input reference
  = Return payload ->
  dom payload
  = list_to_set (EvalChain.input_variables (EvalChain.prompt chain)).
Proof.
  intros Hcls Hf (-> & _ & _)%prepare_input_returns.
  rewrite payload_dom.
  assert (requires_reference chain = rr
          /\ list_to_set (EvalChain.input_variables (EvalChain.prompt chain))
             = EvalChain.expected_variables rr) as [Hr ->].
  { revert Hf. rewrite from_llm_any. cbv zeta.
    case_bool_decide as Hd; [|done]. intros Hc%Hcls. rewrite Hc.
    split; [|done]. cbn. unfold EvalChain.requires_reference. rewrite Hc.
    pose proof (reference_expected rr) as Hr. rewrite <- Hd in Hr.
    rewrite (elem_of_list_to_set (C := gset str)) in Hr.
    destruct rr; [by apply bool_decide_eq_true_2, Hr|].
    apply bool_decide_eq_false_2. intros Hin. by apply Hr in Hin. }
  rewrite Hr. unfold EvalChain.expected_variables. cbn.
  destruct rr; set_solver.
Qed.

(** The payload of the chain for an input and a reference that pass. *)
Local Abbreviation chain_payload self prediction prediction_b input reference :=
  ((if requires_reference self
    then <[ py "reference" := default [] reference ]> else id)
     (<[ py "input" := default [] input ]>
        (<[ py "prediction_b" := prediction_b ]>
           (<[ py "prediction" := prediction ]> (∅ : gmap str str))))).

Lemma chain_check_returns self reference input :
  input <> None -> (requires_reference self = true -> reference <> None) ->
  outcome (_check_evaluation_args self reference input) = Return tt.
Proof. intros Hi Hr. by apply check_returns_iff. Qed.

Lemma chain_prepare_returns self prediction prediction_b input reference :
  EvalChain.truthy input = true ->
  (requires_reference self = true -> reference <> None) ->
  EvalChain._prepare_input self prediction prediction_b input reference
  = Return (chain_payload self prediction prediction_b input reference).
Proof.
  intros Hi Hr. rewrite prepare_input_unfold, Hi.
  change (requires_input self) with true. cbn [andb negb].
  destruct (requires_reference self); [|done].
  destruct reference; [done|]. by destruct Hr.
Qed.

Lemma truthy_not_None input : EvalChain.truthy input = true -> input <> None.
Proof. by destruct input. Qed.

(** X14.  The chain never warns about the input.  Its check emits one
    warning, the chain's own text on the reference, exactly when an input
    and a reference are supplied and the template has no reference slot;
    otherwise it emits none. *)
Theorem chain_check_warnings self reference input :
  warnings (_check_evaluation_args self reference input)
  = (if bool_decide (input <> None) && bool_decide (reference <> None)
        && negb (requires_reference self)
     then [EvalChain._skip_reference_warning (py "PairwiseStringEvalChain")]
     else [])
  /\ (_skip_input_warning self
      ∉ warnings (_check_evaluation_args self reference input)).
Proof.
  assert (warnings (_check_evaluation_args self reference input)
          = (if bool_decide (input <> None) && bool_decide (reference <> None)
                && negb (requires_reference self)
             then [EvalChain._skip_reference_warning
                     (py "PairwiseStringEvalChain")]
             else [])) as E.
  { unfold _check_evaluation_args. change (requires_input self) with true.
    destruct input as [i|], (requires_reference self), reference as [ref|];
      reflexivity. }
  split; [exact E|]. rewrite E.
  destruct (_ && _ && _); [|apply not_elem_of_nil].
  rewrite list_elem_of_singleton. discriminate.
Qed.

(** X15.  With an input that is not empty, and a reference when the
    template has a reference slot, the chain passes the check, assembles the
    payload of the predictions, the input and, with a reference slot, the
    reference, and hands that payload to the completion, on the synchronous
    and on the asynchronous path. *)
Theorem valid_arguments_reach_completion self prediction prediction_b
    reference input callbacks kwargs :
  EvalChain.truthy input = true ->
  (requires_reference self = true -> reference <> None) ->
  let check := _check_evaluation_args self reference input in
  let payload :=
    chain_payload self prediction prediction_b input reference in
  outcome check = Return tt
  /\ EvalChain._prepare_input self prediction prediction_b input reference
     = Return payload
  /\ evaluate_string_pairs self prediction prediction_b reference input
       (callbacks, kwargs)
     = ((check ;; EvalChain.__call__ self payload callbacks kwargs) ≫=
          λ reply, lift (getitem reply (py "text")))
  /\ aevaluate_string_pairs self prediction prediction_b reference input
       (callbacks, kwargs)
     = ((check ;; EvalChain.acall self payload callbacks kwargs) ≫=
          λ reply, lift (getitem reply (py "text"))).
Proof.
  intros Hi Hr check payload.
  assert (outcome check = Return tt) as Hc
    by (by apply chain_check_returns; [apply truthy_not_None|]).
  assert (EvalChain._prepare_input self prediction prediction_b input
            reference = Return payload) as Hp
    by (by apply chain_prepare_returns).
  split; [exact Hc|]. split; [exact Hp|].
  rewrite evaluate_is_pipeline, aevaluate_is_pipeline.
  split; by apply pipeline_invokes.
Qed.

(** X16.  After valid arguments the outcome is the completion's: an error
    it raises is raised unchanged, a reply without the key [text] raises a
    [KeyError], and otherwise the entry at [text] is returned; the warnings
    are those of the check followed by those of the completion. *)
Theorem completion_outcome_passes_through self prediction prediction_b
    reference input callbacks kwargs (w : list str)
    (o : result (gmap str Out)) :
  EvalChain.truthy input = true ->
  (requires_reference self = true -> reference <> None) ->
  EvalChain.__call__ self
    (chain_payload self prediction prediction_b input reference)
    callbacks kwargs = (w, o) ->
  evaluate_string_pairs self prediction prediction_b reference input
    (callbacks, kwargs)
  = (warnings (_check_evaluation_args self reference input) ++ w,
     match o with
     | Raise e => Raise e
     | Return reply =>
         match reply !! py "text" with
         | Some verdict => Return verdict
         | None => Raise (KeyError (py "text"))
         end
     end).
Proof.
  intros Hi Hr Hcall.
  rewrite evaluate_is_pipeline.
  rewrite (pipeline_invokes _ _ _ _ _ _ _ _
             (chain_payload self prediction prediction_b input reference)).
  - rewrite Hcall.
    pose proof (chain_check_returns self reference input
                  (truthy_not_None _ Hi) Hr) as Hc.
    destruct (_check_evaluation_args self reference input) as [wc oc].
    cbn in Hc. subst oc.
    destruct o as [reply|e]; [|reflexivity].
    unfold getitem. cbn. rewrite app_nil_r.
    by destruct (reply !! py "text").
  - by apply chain_check_returns; [apply truthy_not_None|].
  - by apply chain_prepare_returns.
Qed.

End ChainExtras.

(* ===================================================================== *)
(** ** The further properties at concrete inputs *)
(* ===================================================================== *)

Section ConcreteExtras.
Import Schema Scenario.

Lemma accept_keeps_template :
  forall l p f c, accept l p f = Return c -> EvalChain.prompt c = p.
Proof. by intros l p f c [= <-]. Qed.

Lemma aevaluate_string_pairs_not_implemented_witness :
  aevaluate_string_pairs {| case_sensitive := true |} (py "H2O") (py "h2o")
    None (Some (py "What is water?")) tt
  = ([py "Ignoring input in ExactMatch, as it is not expected."],
     Raise (NotImplementedError
              (py "ExactMatch hasn't implemented an async aevaluate_string_pairs method."))
     : result bool).
Proof.
  exact (proj1 (aevaluate_string_pairs_not_implemented
    {| case_sensitive := true |} (py "H2O") (py "h2o") None
    (Some (py "What is water?")) tt eq_refl)).
Defined.

Lemma prepare_input_payload_witness :
  EvalChain._prepare_input {| case_sensitive := true |} (py "H2O") (py "h2o")
    (Some (py "What is water?")) (Some (py "H2O"))
  = Return (<[ py "prediction_b" := py "h2o" ]>
              (<[ py "prediction" := py "H2O" ]> ∅))
  /\ (<[ py "prediction_b" := py "h2o" ]>
        (<[ py "prediction" := py "H2O" ]> (∅ : gmap str str)))
     !! py "input" = None.
Proof.
  split; [reflexivity|].
  exact (proj1 (proj2 (prepare_input_payload {| case_sensitive := true |}
    (py "H2O") (py "h2o") (Some (py "What is water?")) (Some (py "H2O")) _
    eq_refl))).
Defined.

Lemma from_llm_fixes_requires_reference_witness :
  EvalChain.from_llm plain_template reference_template (λ _, []) (λ _, [])
    accept tt None true tt = Return reference_chain
  /\ requires_reference reference_chain = true.
Proof.
  assert (EvalChain.from_llm plain_template reference_template (λ _, [])
            (λ _, []) accept tt None true tt = Return reference_chain) as E
    by (vm_compute; reflexivity).
  split; [exact E|].
  exact (proj1 (from_llm_fixes_requires_reference plain_template
    reference_template (λ _, []) (λ _, []) accept tt None true tt
    reference_chain accept_keeps_template E)).
Defined.

Lemma payload_matches_template_witness :
  dom (<[ py "reference" := py "H2O" ]>
         (<[ py "input" := py "What is water?" ]>
            (<[ py "prediction_b" := py "h2o" ]>
               (<[ py "prediction" := py "H2O" ]> (∅ : gmap str str)))))
  = list_to_set (EvalChain.input_variables reference_template).
Proof.
  refine (payload_matches_template plain_template reference_template
    (λ _, []) (λ _, []) accept tt None true tt reference_chain
    (py "H2O") (py "h2o") (Some (py "What is water?")) (Some (py "H2O")) _
    accept_keeps_template _ _).
  - vm_compute; reflexivity.
  - reflexivity.
Defined.

Lemma valid_arguments_reach_completion_witness :
  EvalChain.truthy (Some (py "What is the formula for water?")) = true
  /\ EvalChain._prepare_input plain_chain (py "H2O") (py "Water is H2O")
       (Some (py "What is the formula for water?")) None
     = Return (<[ py "input" := py "What is the formula for water?" ]>
                 (<[ py "prediction_b" := py "Water is H2O" ]>
                    (<[ py "prediction" := py "H2O" ]> ∅))).
Proof.
  split; [reflexivity|].
  refine (proj1 (proj2 (@valid_arguments_reach_completion _ _ _ _ _
    (canned_chain water_reply) plain_chain (py "H2O") (py "Water is H2O")
    None (Some (py "What is the formula for water?")) tt tt eq_refl _))).
  intros [=].
Defined.

Lemma completion_outcome_passes_through_witness :
  @evaluate_string_pairs _ _ _ _
    (@EvalChain.chain_evaluator _ _ _ _ _ (canned_chain water_reply))
    plain_chain (py "H2O") (py "Water is H2O") (Some (py "H2O"))
    (Some (py "What is the formula for water?")) (tt, tt)
  = ([EvalChain._skip_reference_warning (py "PairwiseStringEvalChain")],
     Return {| reasoning := py "Both are correct, B is more detailed.";
               value := Some (py "B"); score := Some 0%Q |}).
Proof.
  refine (@completion_outcome_passes_through _ _ _ _ _
    (canned_chain water_reply) plain_chain (py "H2O") (py "Water is H2O")
    (Some (py "H2O")) (Some (py "What is the formula for water?")) tt tt
    [] (Return (<[ py "text" :=
                     {| reasoning := py "Both are correct, B is more detailed.";
                        value := Some (py "B"); score := Some 0%Q |} ]> ∅))
    eq_refl _ _).
  - intros [=].
  - vm_compute; reflexivity.
Defined.

End ConcreteExtras.
